(** * JoystickGripperInterface: joystick input to gripper angle commands

    A shallow embedding of [rqt_rover_gui/src/JoystickGripperInterface.cpp].
    The object's members become a record, the member functions become
    computations in a small state-and-exception monad over the object and the
    record of what was sent to ROS, and the [float] arithmetic is IEEE 754
    binary32 as specified by the standard library's [SpecFloat].

    The copy constructor and the destructor take no part in the properties
    below and are left out. *)

From Stdlib Require Import ZArith Bool List String Lia.
From Stdlib Require Import SpecFloat.
Import ListNotations.

Local Open Scope string_scope.
Local Open Scope Z_scope.

(** ** Floating point *)

Definition is_nan (x : spec_float) : bool :=
  match x with S754_nan => true | _ => false end.

Definition is_finite (x : spec_float) : bool :=
  match x with S754_zero _ | S754_finite _ _ _ => true | _ => false end.

(** [lo <= a && a <= hi] as the machine evaluates it. *)
Definition within (lo hi a : spec_float) : bool := SFleb lo a && SFleb a hi.

(** C++ [double]: binary64.  Only literals and one comparison live here. *)
Module F64.
Definition prec : Z := 53.
Definition emax : Z := 1024.

(** An integer as a [double]. *)
Definition of_Z (n : Z) : spec_float := binary_normalize prec emax n 0 false.

(** The decimal literal [n / 10^k], correctly rounded, as compilers read it. *)
Definition literal (n : Z) (k : nat) : spec_float :=
  SFdiv prec emax (of_Z n) (of_Z (10 ^ Z.of_nat k)).

(** Promotion of a [float] to [double]: exact, only the mantissa is
    realigned to 53 bits. *)
Definition of_float (x : spec_float) : spec_float :=
  match x with
  | S754_finite s m e => binary_normalize prec emax (cond_Zopp s (Zpos m)) e s
  | _ => x
  end.
End F64.

(** C++ [float]: binary32, round to nearest even. *)
Module F32.
Definition prec : Z := 24.
Definition emax : Z := 128.

Definition add : spec_float -> spec_float -> spec_float := SFadd prec emax.
Definition mul : spec_float -> spec_float -> spec_float := SFmul prec emax.

(** Conversion of a [double] to [float] (assignment of a [double] value to
    a [float] member). *)
Definition of_double (x : spec_float) : spec_float :=
  match x with
  | S754_finite s m e => binary_normalize prec emax (cond_Zopp s (Zpos m)) e s
  | _ => x
  end.

(** Conversion of an [int] to [float]. *)
Definition of_Z (n : Z) : spec_float := binary_normalize prec emax n 0 false.

(** A decimal literal with the [f] suffix. *)
Definition literal (n : Z) (k : nat) : spec_float :=
  SFdiv prec emax (of_Z n) (of_Z (10 ^ Z.of_nat k)).
End F32.

Definition float : Type := spec_float.

(** [fabs(x) < 0.001]: the literal is a [double], so [x] is promoted and the
    comparison is made in binary64. *)
Definition fabs_lt_0_001 (x : float) : bool :=
  SFltb (F64.of_float (SFabs x)) (F64.literal 1 3).

(** ** Collaborators: Qt timers and ROS publishers *)

(** What the class uses of [QTimer]: whether it is running, and its period
    in milliseconds. *)
Record QTimer : Type := { isActive : bool; interval : Z }.

(** [new QTimer(this)] *)
Definition QTimer_new : QTimer := {| isActive := false; interval := 0 |}.

(** [QTimer::start(int msec)]: sets the interval and starts or restarts. *)
Definition QTimer_start (msec : Z) (t : QTimer) : QTimer :=
  {| isActive := true; interval := msec |}.

(** [QTimer::stop()] *)
Definition QTimer_stop (t : QTimer) : QTimer :=
  {| isActive := false; interval := interval t |}.

Record NodeHandle : Type := { ns : string }.

(** A [ros::Publisher] handle: the topic it is bound to, or [None] for the
    invalid handle (default constructed, or after [shutdown()]). *)
Definition Publisher : Type := option string.

(** What the object sends to the ROS graph, oldest first. *)
Inductive ros_event : Type :=
| Advertise (topic : string) (queue_size : Z)
| Shutdown (topic : string)
| Publish (topic : string) (data : float).

(** ** The object *)

(** Modelled from the spec: [JoystickGripperInterface.h], which declares the
    members, is not part of the sources.  The angles, limits, rates, joystick
    vectors and the dead zone are [float], the reapply period is an integer
    number of milliseconds, [ready] is a [bool]; the timers are held through
    pointers ([new QTimer], [->stop()]), [None] standing for a pointer that
    addresses no timer. *)
Record JoystickGripperInterface : Type := {
  ready : bool;
  nh : NodeHandle;
  roverName : string;
  gripperWristAnglePublisher : Publisher;
  gripperFingerAnglePublisher : Publisher;
  joystickGripperWristControlTimer : option QTimer;
  joystickGripperFingerControlTimer : option QTimer;
  wristAngle : float;
  wristAngleChangeRate : float;
  wristAngleMax : float;
  wristAngleMin : float;
  wristJoystickVector : float;
  fingerAngle : float;
  fingerAngleChangeRate : float;
  fingerAngleMax : float;
  fingerAngleMin : float;
  fingerJoystickVector : float;
  commandReapplyRate : Z;
  stickCenterTolerance : float
}.

(** Assignment to one member. *)
Definition set_ready (v : bool) (this : JoystickGripperInterface)
  : JoystickGripperInterface :=
  {| ready := v; nh := nh this; roverName := roverName this;
     gripperWristAnglePublisher := gripperWristAnglePublisher this;
     gripperFingerAnglePublisher := gripperFingerAnglePublisher this;
     joystickGripperWristControlTimer := joystickGripperWristControlTimer this;
     joystickGripperFingerControlTimer := joystickGripperFingerControlTimer this;
     wristAngle := wristAngle this;
     wristAngleChangeRate := wristAngleChangeRate this;
     wristAngleMax := wristAngleMax this; wristAngleMin := wristAngleMin this;
     wristJoystickVector := wristJoystickVector this;
     fingerAngle := fingerAngle this;
     fingerAngleChangeRate := fingerAngleChangeRate this;
     fingerAngleMax := fingerAngleMax this;
     fingerAngleMin := fingerAngleMin this;
     fingerJoystickVector := fingerJoystickVector this;
     commandReapplyRate := commandReapplyRate this;
     stickCenterTolerance := stickCenterTolerance this |}.

Definition set_roverName (v : string) (this : JoystickGripperInterface)
  : JoystickGripperInterface :=
  {| ready := ready this; nh := nh this; roverName := v;
     gripperWristAnglePublisher := gripperWristAnglePublisher this;
     gripperFingerAnglePublisher := gripperFingerAnglePublisher this;
     joystickGripperWristControlTimer := joystickGripperWristControlTimer this;
     joystickGripperFingerControlTimer := joystickGripperFingerControlTimer this;
     wristAngle := wristAngle this;
     wristAngleChangeRate := wristAngleChangeRate this;
     wristAngleMax := wristAngleMax this; wristAngleMin := wristAngleMin this;
     wristJoystickVector := wristJoystickVector this;
     fingerAngle := fingerAngle this;
     fingerAngleChangeRate := fingerAngleChangeRate this;
     fingerAngleMax := fingerAngleMax this;
     fingerAngleMin := fingerAngleMin this;
     fingerJoystickVector := fingerJoystickVector this;
     commandReapplyRate := commandReapplyRate this;
     stickCenterTolerance := stickCenterTolerance this |}.

Definition set_gripperWristAnglePublisher (v : Publisher) (this : JoystickGripperInterface)
  : JoystickGripperInterface :=
  {| ready := ready this; nh := nh this; roverName := roverName this;
     gripperWristAnglePublisher := v;
     gripperFingerAnglePublisher := gripperFingerAnglePublisher this;
     joystickGripperWristControlTimer := joystickGripperWristControlTimer this;
     joystickGripperFingerControlTimer := joystickGripperFingerControlTimer this;
     wristAngle := wristAngle this;
     wristAngleChangeRate := wristAngleChangeRate this;
     wristAngleMax := wristAngleMax this; wristAngleMin := wristAngleMin this;
     wristJoystickVector := wristJoystickVector this;
     fingerAngle := fingerAngle this;
     fingerAngleChangeRate := fingerAngleChangeRate this;
     fingerAngleMax := fingerAngleMax this;
     fingerAngleMin := fingerAngleMin this;
     fingerJoystickVector := fingerJoystickVector this;
     commandReapplyRate := commandReapplyRate this;
     stickCenterTolerance := stickCenterTolerance this |}.

Definition set_gripperFingerAnglePublisher (v : Publisher) (this : JoystickGripperInterface)
  : JoystickGripperInterface :=
  {| ready := ready this; nh := nh this; roverName := roverName this;
     gripperWristAnglePublisher := gripperWristAnglePublisher this;
     gripperFingerAnglePublisher := v;
     joystickGripperWristControlTimer := joystickGripperWristControlTimer this;
     joystickGripperFingerControlTimer := joystickGripperFingerControlTimer this;
     wristAngle := wristAngle this;
     wristAngleChangeRate := wristAngleChangeRate this;
     wristAngleMax := wristAngleMax this; wristAngleMin := wristAngleMin this;
     wristJoystickVector := wristJoystickVector this;
     fingerAngle := fingerAngle this;
     fingerAngleChangeRate := fingerAngleChangeRate this;
     fingerAngleMax := fingerAngleMax this;
     fingerAngleMin := fingerAngleMin this;
     fingerJoystickVector := fingerJoystickVector this;
     commandReapplyRate := commandReapplyRate this;
     stickCenterTolerance := stickCenterTolerance this |}.

Definition set_joystickGripperWristControlTimer (v : option QTimer) (this : JoystickGripperInterface)
  : JoystickGripperInterface :=
  {| ready := ready this; nh := nh this; roverName := roverName this;
     gripperWristAnglePublisher := gripperWristAnglePublisher this;
     gripperFingerAnglePublisher := gripperFingerAnglePublisher this;
     joystickGripperWristControlTimer := v;
     joystickGripperFingerControlTimer := joystickGripperFingerControlTimer this;
     wristAngle := wristAngle this;
     wristAngleChangeRate := wristAngleChangeRate this;
     wristAngleMax := wristAngleMax this; wristAngleMin := wristAngleMin this;
     wristJoystickVector := wristJoystickVector this;
     fingerAngle := fingerAngle this;
     fingerAngleChangeRate := fingerAngleChangeRate this;
     fingerAngleMax := fingerAngleMax this;
     fingerAngleMin := fingerAngleMin this;
     fingerJoystickVector := fingerJoystickVector this;
     commandReapplyRate := commandReapplyRate this;
     stickCenterTolerance := stickCenterTolerance this |}.

Definition set_joystickGripperFingerControlTimer (v : option QTimer) (this : JoystickGripperInterface)
  : JoystickGripperInterface :=
  {| ready := ready this; nh := nh this; roverName := roverName this;
     gripperWristAnglePublisher := gripperWristAnglePublisher this;
     gripperFingerAnglePublisher := gripperFingerAnglePublisher this;
     joystickGripperWristControlTimer := joystickGripperWristControlTimer this;
     joystickGripperFingerControlTimer := v; wristAngle := wristAngle this;
     wristAngleChangeRate := wristAngleChangeRate this;
     wristAngleMax := wristAngleMax this; wristAngleMin := wristAngleMin this;
     wristJoystickVector := wristJoystickVector this;
     fingerAngle := fingerAngle this;
     fingerAngleChangeRate := fingerAngleChangeRate this;
     fingerAngleMax := fingerAngleMax this;
     fingerAngleMin := fingerAngleMin this;
     fingerJoystickVector := fingerJoystickVector this;
     commandReapplyRate := commandReapplyRate this;
     stickCenterTolerance := stickCenterTolerance this |}.

Definition set_wristAngle (v : float) (this : JoystickGripperInterface)
  : JoystickGripperInterface :=
  {| ready := ready this; nh := nh this; roverName := roverName this;
     gripperWristAnglePublisher := gripperWristAnglePublisher this;
     gripperFingerAnglePublisher := gripperFingerAnglePublisher this;
     joystickGripperWristControlTimer := joystickGripperWristControlTimer this;
     joystickGripperFingerControlTimer := joystickGripperFingerControlTimer this;
     wristAngle := v; wristAngleChangeRate := wristAngleChangeRate this;
     wristAngleMax := wristAngleMax this; wristAngleMin := wristAngleMin this;
     wristJoystickVector := wristJoystickVector this;
     fingerAngle := fingerAngle this;
     fingerAngleChangeRate := fingerAngleChangeRate this;
     fingerAngleMax := fingerAngleMax this;
     fingerAngleMin := fingerAngleMin this;
     fingerJoystickVector := fingerJoystickVector this;
     commandReapplyRate := commandReapplyRate this;
     stickCenterTolerance := stickCenterTolerance this |}.

Definition set_wristJoystickVector (v : float) (this : JoystickGripperInterface)
  : JoystickGripperInterface :=
  {| ready := ready this; nh := nh this; roverName := roverName this;
     gripperWristAnglePublisher := gripperWristAnglePublisher this;
     gripperFingerAnglePublisher := gripperFingerAnglePublisher this;
     joystickGripperWristControlTimer := joystickGripperWristControlTimer this;
     joystickGripperFingerControlTimer := joystickGripperFingerControlTimer this;
     wristAngle := wristAngle this;
     wristAngleChangeRate := wristAngleChangeRate this;
     wristAngleMax := wristAngleMax this; wristAngleMin := wristAngleMin this;
     wristJoystickVector := v; fingerAngle := fingerAngle this;
     fingerAngleChangeRate := fingerAngleChangeRate this;
     fingerAngleMax := fingerAngleMax this;
     fingerAngleMin := fingerAngleMin this;
     fingerJoystickVector := fingerJoystickVector this;
     commandReapplyRate := commandReapplyRate this;
     stickCenterTolerance := stickCenterTolerance this |}.

Definition set_fingerAngle (v : float) (this : JoystickGripperInterface)
  : JoystickGripperInterface :=
  {| ready := ready this; nh := nh this; roverName := roverName this;
     gripperWristAnglePublisher := gripperWristAnglePublisher this;
     gripperFingerAnglePublisher := gripperFingerAnglePublisher this;
     joystickGripperWristControlTimer := joystickGripperWristControlTimer this;
     joystickGripperFingerControlTimer := joystickGripperFingerControlTimer this;
     wristAngle := wristAngle this;
     wristAngleChangeRate := wristAngleChangeRate this;
     wristAngleMax := wristAngleMax this; wristAngleMin := wristAngleMin this;
     wristJoystickVector := wristJoystickVector this; fingerAngle := v;
     fingerAngleChangeRate := fingerAngleChangeRate this;
     fingerAngleMax := fingerAngleMax this;
     fingerAngleMin := fingerAngleMin this;
     fingerJoystickVector := fingerJoystickVector this;
     commandReapplyRate := commandReapplyRate this;
     stickCenterTolerance := stickCenterTolerance this |}.

Definition set_fingerJoystickVector (v : float) (this : JoystickGripperInterface)
  : JoystickGripperInterface :=
  {| ready := ready this; nh := nh this; roverName := roverName this;
     gripperWristAnglePublisher := gripperWristAnglePublisher this;
     gripperFingerAnglePublisher := gripperFingerAnglePublisher this;
     joystickGripperWristControlTimer := joystickGripperWristControlTimer this;
     joystickGripperFingerControlTimer := joystickGripperFingerControlTimer this;
     wristAngle := wristAngle this;
     wristAngleChangeRate := wristAngleChangeRate this;
     wristAngleMax := wristAngleMax this; wristAngleMin := wristAngleMin this;
     wristJoystickVector := wristJoystickVector this;
     fingerAngle := fingerAngle this;
     fingerAngleChangeRate := fingerAngleChangeRate this;
     fingerAngleMax := fingerAngleMax this;
     fingerAngleMin := fingerAngleMin this; fingerJoystickVector := v;
     commandReapplyRate := commandReapplyRate this;
     stickCenterTolerance := stickCenterTolerance this |}.

(** The object together with its environment. *)
Record World : Type := { self : JoystickGripperInterface; ros : list ros_event }.

(** ** Member functions as computations *)

Inductive exception : Type := JoystickGripperInterfaceNotReadyException.

(** A call returns, throws (the object keeps the state it had at the [throw]),
    or has no defined behaviour (a timer pointer that addresses no timer is
    dereferenced). *)
Inductive outcome (A : Type) : Type :=
| Returns (a : A) (w : World)
| Throws (e : exception) (w : World)
| Undefined.
Arguments Returns {A} a w.
Arguments Throws {A} e w.
Arguments Undefined {A}.

Definition M (A : Type) : Type := World -> outcome A.

Definition ret {A} (a : A) : M A := fun w => Returns a w.

Definition bind {A B} (c : M A) (k : A -> M B) : M B :=
  fun w => match c w with
           | Returns a w' => k a w'
           | Throws e w' => Throws e w'
           | Undefined => Undefined
           end.

Notation "x <- c ;; k" := (bind c (fun x => k))
  (at level 61, c at next level, right associativity).
Notation "c ;; k" := (bind c (fun _ => k))
  (at level 61, right associativity).

Definition throw {A} (e : exception) : M A := fun w => Throws e w.
Definition undefined {A} : M A := fun _ => Undefined.

(** Read the object; assign to a member. *)
Definition this : M JoystickGripperInterface := fun w => Returns (self w) w.
Definition assign (f : JoystickGripperInterface -> JoystickGripperInterface) : M unit :=
  fun w => Returns tt {| self := f (self w); ros := ros w |}.
Definition emit (e : ros_event) : M unit :=
  fun w => Returns tt {| self := self w; ros := ros w ++ [e] |}.

(** [timer->f()] through a member pointer. *)
Definition through (p : option QTimer) (store : option QTimer -> M unit)
    (f : QTimer -> QTimer) : M unit :=
  match p with
  | Some t => store (Some (f t))
  | None => undefined
  end.

(** [nh.advertise<std_msgs::Float32>(topic, queue_size, this)] *)
Definition advertise (topic : string) (queue_size : Z) : M Publisher :=
  emit (Advertise topic queue_size) ;; ret (Some topic).

(** [pub.shutdown()]: unadvertises, the handle becomes invalid. *)
Definition shutdown (p : Publisher) : M Publisher :=
  match p with
  | Some topic => emit (Shutdown topic) ;; ret None
  | None => ret None
  end.

(** [pub.publish(msg)]: an invalid handle sends nothing. *)
Definition publish (p : Publisher) (data : float) : M unit :=
  match p with
  | Some topic => emit (Publish topic data)
  | None => ret tt
  end.

(** ** Construction *)

(** Storage of a new object before a constructor body runs: members of class
    type are default constructed, the scalar members hold whatever [indet]
    holds, and the timer pointers address no timer. *)
Definition storage (indet : JoystickGripperInterface) : JoystickGripperInterface :=
  {| ready := ready indet;
     nh := {| ns := "" |};
     roverName := "";
     gripperWristAnglePublisher := None;
     gripperFingerAnglePublisher := None;
     joystickGripperWristControlTimer := None;
     joystickGripperFingerControlTimer := None;
     wristAngle := wristAngle indet;
     wristAngleChangeRate := wristAngleChangeRate indet;
     wristAngleMax := wristAngleMax indet;
     wristAngleMin := wristAngleMin indet;
     wristJoystickVector := wristJoystickVector indet;
     fingerAngle := fingerAngle indet;
     fingerAngleChangeRate := fingerAngleChangeRate indet;
     fingerAngleMax := fingerAngleMax indet;
     fingerAngleMin := fingerAngleMin indet;
     fingerJoystickVector := fingerJoystickVector indet;
     commandReapplyRate := commandReapplyRate indet;
     stickCenterTolerance := stickCenterTolerance indet |}.

(** [JoystickGripperInterface::JoystickGripperInterface()] *)
Definition JoystickGripperInterface_default : M unit :=
  assign (set_ready false).

(** [JoystickGripperInterface::JoystickGripperInterface(ros::NodeHandle nh,
    string roverName)].  Every member is assigned; [ready] is false until the
    last statement. *)
Definition JoystickGripperInterface_rover (nh0 : NodeHandle) (roverName0 : string)
  : M unit :=
  assign (set_ready false) ;;
  assign (fun o =>
    {| ready := ready o;
       nh := nh0;
       roverName := roverName o;
       gripperWristAnglePublisher := gripperWristAnglePublisher o;
       gripperFingerAnglePublisher := gripperFingerAnglePublisher o;
       joystickGripperWristControlTimer := Some QTimer_new;
       joystickGripperFingerControlTimer := Some QTimer_new;
       wristAngle := F32.of_Z 0;
       wristAngleChangeRate := F32.of_double (F64.literal 1 1);
       wristAngleMax := F32.of_double (F64.literal 10 1);
       wristAngleMin := F32.of_double (F64.literal 0 1);
       wristJoystickVector := F32.of_double (F64.literal 0 1);
       fingerAngle := F32.of_Z 0;
       fingerAngleChangeRate := F32.of_double (F64.literal 1 1);
       fingerAngleMax := F32.of_double (F64.literal 20 1);
       fingerAngleMin := F32.of_double (F64.literal 0 1);
       fingerJoystickVector := F32.of_double (F64.literal 0 1);
       commandReapplyRate := 100;
       stickCenterTolerance := F32.of_double (F64.literal 5 2) |}) ;;
  pw <- advertise ("/" ++ roverName0 ++ "/wristAngle") 10 ;;
  assign (set_gripperWristAnglePublisher pw) ;;
  pf <- advertise ("/" ++ roverName0 ++ "/fingerAngle") 10 ;;
  assign (set_gripperFingerAnglePublisher pf) ;;
  assign (set_roverName roverName0) ;;
  assign (set_ready true).

(** ** Joystick input *)

(** [void JoystickGripperInterface::moveWrist(float vec)].  Both sides of the
    dead-zone test are [float] values, so whether [fabs] promotes them or not
    the comparison is the binary32 one. *)
Definition moveWrist (vec : float) : M unit :=
  o <- this ;;
  (if negb (ready o) then throw JoystickGripperInterfaceNotReadyException
   else ret tt) ;;
  assign (set_wristJoystickVector (SFopp vec)) ;;
  o <- this ;;
  if SFltb (SFabs (wristJoystickVector o)) (stickCenterTolerance o)
  then through (joystickGripperWristControlTimer o)
         (fun p => assign (set_joystickGripperWristControlTimer p))
         QTimer_stop
  else through (joystickGripperWristControlTimer o)
         (fun p => assign (set_joystickGripperWristControlTimer p))
         (QTimer_start (commandReapplyRate o)).

(** [void JoystickGripperInterface::moveFingers(float vec)] *)
Definition moveFingers (vec : float) : M unit :=
  o <- this ;;
  (if negb (ready o) then throw JoystickGripperInterfaceNotReadyException
   else ret tt) ;;
  assign (set_fingerJoystickVector vec) ;;
  o <- this ;;
  if SFltb (SFabs (fingerJoystickVector o)) (stickCenterTolerance o)
  then through (joystickGripperFingerControlTimer o)
         (fun p => assign (set_joystickGripperFingerControlTimer p))
         QTimer_stop
  else through (joystickGripperFingerControlTimer o)
         (fun p => assign (set_joystickGripperFingerControlTimer p))
         (QTimer_start (commandReapplyRate o)).

(** ** Timer slots *)

(** [void JoystickGripperInterface::joystickGripperWristControlTimerEventHandler()] *)
Definition joystickGripperWristControlTimerEventHandler : M unit :=
  o <- this ;;
  assign (set_wristAngle
            (F32.add (wristAngle o)
                     (F32.mul (wristJoystickVector o) (wristAngleChangeRate o)))) ;;
  o <- this ;;
  (if SFltb (wristAngleMax o) (wristAngle o)
   then assign (set_wristAngle (wristAngleMax o))
   else if SFltb (wristAngle o) (wristAngleMin o)
        then assign (set_wristAngle (wristAngleMin o))
        else ret tt) ;;
  o <- this ;;
  (if fabs_lt_0_001 (wristAngle o)
   then assign (set_wristAngle (F32.literal 0 1))
   else ret tt) ;;
  o <- this ;;
  publish (gripperWristAnglePublisher o) (wristAngle o).

(** [void JoystickGripperInterface::joystickGripperFingerControlTimerEventHandler()] *)
Definition joystickGripperFingerControlTimerEventHandler : M unit :=
  o <- this ;;
  assign (set_fingerAngle
            (F32.add (fingerAngle o)
                     (F32.mul (fingerJoystickVector o) (fingerAngleChangeRate o)))) ;;
  o <- this ;;
  (if SFltb (fingerAngleMax o) (fingerAngle o)
   then assign (set_fingerAngle (fingerAngleMax o))
   else if SFltb (fingerAngle o) (fingerAngleMin o)
        then assign (set_fingerAngle (fingerAngleMin o))
        else ret tt) ;;
  o <- this ;;
  (if fabs_lt_0_001 (fingerAngle o)
   then assign (set_fingerAngle (F32.literal 0 1))
   else ret tt) ;;
  o <- this ;;
  publish (gripperFingerAnglePublisher o) (fingerAngle o).

(** ** Changing the rover *)

(** [void JoystickGripperInterface::changeRovers(string roverName)] *)
Definition changeRovers (roverName0 : string) : M unit :=
  assign (set_ready false) ;;
  o <- this ;;
  through (joystickGripperWristControlTimer o)
    (fun p => assign (set_joystickGripperWristControlTimer p)) QTimer_stop ;;
  o <- this ;;
  through (joystickGripperFingerControlTimer o)
    (fun p => assign (set_joystickGripperFingerControlTimer p)) QTimer_stop ;;
  o <- this ;;
  pw <- shutdown (gripperWristAnglePublisher o) ;;
  assign (set_gripperWristAnglePublisher pw) ;;
  o <- this ;;
  pf <- shutdown (gripperFingerAnglePublisher o) ;;
  assign (set_gripperFingerAnglePublisher pf) ;;
  assign (set_fingerAngle (F32.of_Z 0)) ;;
  assign (set_wristAngle (F32.of_Z 0)) ;;
  assign (set_fingerJoystickVector (F32.of_double (F64.literal 0 1))) ;;
  assign (set_wristJoystickVector (F32.of_double (F64.literal 0 1))) ;;
  assign (set_roverName roverName0) ;;
  pw <- advertise ("/" ++ roverName0 ++ "/wristAngle") 10 ;;
  assign (set_gripperWristAnglePublisher pw) ;;
  pf <- advertise ("/" ++ roverName0 ++ "/fingerAngle") 10 ;;
  assign (set_gripperFingerAnglePublisher pf) ;;
  assign (set_ready true).


(** ** The object under its callers *)

(** What reaches the object from outside: the joystick handler's two calls,
    the rover selection, and the two [timeout()] signals. *)
Inductive call : Type :=
| MoveWrist (vec : float)
| MoveFingers (vec : float)
| ChangeRovers (roverName0 : string)
| WristTimeout
| FingerTimeout.

(** A [timeout()] signal invokes its slot only when it comes from a timer
    that exists and is running. *)
Definition on_timeout (p : option QTimer) (slot : M unit) : M unit :=
  match p with
  | Some t => if isActive t then slot else ret tt
  | None => ret tt
  end.

Definition dispatch (c : call) : M unit :=
  match c with
  | MoveWrist vec => moveWrist vec
  | MoveFingers vec => moveFingers vec
  | ChangeRovers r => changeRovers r
  | WristTimeout =>
      o <- this ;;
      on_timeout (joystickGripperWristControlTimer o)
        joystickGripperWristControlTimerEventHandler
  | FingerTimeout =>
      o <- this ;;
      on_timeout (joystickGripperFingerControlTimer o)
        joystickGripperFingerControlTimerEventHandler
  end.

Fixpoint run (calls : list call) : M unit :=
  match calls with
  | [] => ret tt
  | c :: rest => dispatch c ;; run rest
  end.

(** The state a call leaves behind, whether it returned or threw. *)
Definition post {A} (r : outcome A) : option World :=
  match r with
  | Returns _ w => Some w
  | Throws _ w => Some w
  | Undefined => None
  end.

(** The two ways an object comes to exist. *)
Definition default_constructed (indet : JoystickGripperInterface) : outcome unit :=
  JoystickGripperInterface_default {| self := storage indet; ros := [] |}.

Definition rover_constructed (nh0 : NodeHandle) (roverName0 : string)
    (indet : JoystickGripperInterface) : outcome unit :=
  JoystickGripperInterface_rover nh0 roverName0
    {| self := storage indet; ros := [] |}.

(** The states of an object built by one of these two constructors, between
    two calls. *)
Inductive reachable : World -> Prop :=
| reach_default indet w :
    post (default_constructed indet) = Some w -> reachable w
| reach_rover nh0 roverName0 indet w :
    post (rover_constructed nh0 roverName0 indet) = Some w -> reachable w
| reach_call c w w' :
    reachable w -> post (dispatch c w) = Some w' -> reachable w'.

(** ** Vocabulary of the statements *)

(** The three stages of a timer slot's computation. *)
Definition integrated (angle vec rate : float) : float :=
  F32.add angle (F32.mul vec rate).

Definition clamped (lo hi a : float) : float :=
  if SFltb hi a then hi else if SFltb a lo then lo else a.

Definition snapped (a : float) : float :=
  if fabs_lt_0_001 a then F32.literal 0 1 else a.

Definition wrist_tick_angle (o : JoystickGripperInterface) : float :=
  snapped (clamped (wristAngleMin o) (wristAngleMax o)
             (integrated (wristAngle o) (wristJoystickVector o)
                (wristAngleChangeRate o))).

Definition finger_tick_angle (o : JoystickGripperInterface) : float :=
  snapped (clamped (fingerAngleMin o) (fingerAngleMax o)
             (integrated (fingerAngle o) (fingerJoystickVector o)
                (fingerAngleChangeRate o))).

(** The timer a joystick vector leaves behind: stopped inside the dead zone,
    started at the reapply period outside of it. *)
Definition steered (vector tolerance : float) (msec : Z) (t : QTimer) : QTimer :=
  if SFltb (SFabs vector) tolerance then QTimer_stop t else QTimer_start msec t.

(** The events one [publish] and one [shutdown] add. *)
Definition sent (p : Publisher) (data : float) : list ros_event :=
  match p with Some topic => [Publish topic data] | None => [] end.

Definition closed (p : Publisher) : list ros_event :=
  match p with Some topic => [Shutdown topic] | None => [] end.

(** Both timer pointers address a timer. *)
Definition allocated (o : JoystickGripperInterface) : bool :=
  match joystickGripperWristControlTimer o, joystickGripperFingerControlTimer o with
  | Some _, Some _ => true
  | _, _ => false
  end.

(** The parameters as the rover constructor sets them. *)
Record configured (o : JoystickGripperInterface) : Prop := {
  cfg_wrist_min : wristAngleMin o = F32.of_double (F64.literal 0 1);
  cfg_wrist_max : wristAngleMax o = F32.of_double (F64.literal 10 1);
  cfg_wrist_rate : wristAngleChangeRate o = F32.of_double (F64.literal 1 1);
  cfg_finger_min : fingerAngleMin o = F32.of_double (F64.literal 0 1);
  cfg_finger_max : fingerAngleMax o = F32.of_double (F64.literal 20 1);
  cfg_finger_rate : fingerAngleChangeRate o = F32.of_double (F64.literal 1 1);
  cfg_reapply : commandReapplyRate o = 100;
  cfg_tolerance : stickCenterTolerance o = F32.of_double (F64.literal 5 2)
}.

(** Between calls an object is either a bare default-constructed one or a
    ready one with its timers and parameters in place. *)
Definition sound (o : JoystickGripperInterface) : Prop :=
  if ready o then allocated o = true /\ configured o
  else joystickGripperWristControlTimer o = None.

(** A call whose joystick value is a number. *)
Definition numeric (c : call) : bool :=
  match c with
  | MoveWrist vec | MoveFingers vec => negb (is_nan vec)
  | _ => true
  end.

(** Both angles inside their limits. *)
Definition in_limits (o : JoystickGripperInterface) : bool :=
  within (wristAngleMin o) (wristAngleMax o) (wristAngle o)
  && within (fingerAngleMin o) (fingerAngleMax o) (fingerAngle o).

(** The states after each call of a sequence. *)
Fixpoint trajectory (calls : list call) (w : World) : list World :=
  match calls with
  | [] => []
  | c :: rest =>
      match post (dispatch c w) with
      | Some w' => w' :: trajectory rest w'
      | None => []
      end
  end.

(** A ready object whose joystick vectors are numbers and whose angles are
    inside their limits. *)
Record steady (o : JoystickGripperInterface) : Prop := {
  steady_ready : ready o = true;
  steady_allocated : allocated o = true;
  steady_configured : configured o;
  steady_wrist_vector : is_nan (wristJoystickVector o) = false;
  steady_finger_vector : is_nan (fingerJoystickVector o) = false;
  steady_limits : in_limits o = true
}.

(** The exception a call ends with, and the state it leaves, if it throws. *)
Definition thrown {A} (r : outcome A) : option (exception * World) :=
  match r with
  | Throws e w => Some (e, w)
  | _ => None
  end.

(** One content that storage may hold before a constructor runs. *)
Definition garbage : JoystickGripperInterface :=
  {| ready := true;
     nh := {| ns := "" |};
     roverName := "";
     gripperWristAnglePublisher := None;
     gripperFingerAnglePublisher := None;
     joystickGripperWristControlTimer := None;
     joystickGripperFingerControlTimer := None;
     wristAngle := S754_nan;
     wristAngleChangeRate := S754_infinity true;
     wristAngleMax := S754_finite true 8388608 (-23);
     wristAngleMin := S754_nan;
     wristJoystickVector := S754_finite false 12345678 3;
     fingerAngle := S754_infinity false;
     fingerAngleChangeRate := S754_nan;
     fingerAngleMax := S754_zero true;
     fingerAngleMin := S754_finite false 8388608 (-20);
     fingerJoystickVector := S754_nan;
     commandReapplyRate := -7;
     stickCenterTolerance := S754_nan |}.

(** What belongs to each joint, and what both share. *)
Definition wrist_part (o : JoystickGripperInterface) :=
  (wristAngle o, wristJoystickVector o, joystickGripperWristControlTimer o,
   gripperWristAnglePublisher o).

Definition finger_part (o : JoystickGripperInterface) :=
  (fingerAngle o, fingerJoystickVector o, joystickGripperFingerControlTimer o,
   gripperFingerAnglePublisher o).

Definition shared_part (o : JoystickGripperInterface) :=
  (wristAngleMin o, wristAngleMax o, wristAngleChangeRate o,
   fingerAngleMin o, fingerAngleMax o, fingerAngleChangeRate o,
   stickCenterTolerance o, commandReapplyRate o, ready o).

(** A timer pointer that addresses a stopped timer. *)
Definition stopped (p : option QTimer) : bool :=
  match p with Some t => negb (isActive t) | None => false end.

(** A timer pointer that addresses a running timer. *)
Definition running (p : option QTimer) : bool :=
  match p with Some t => isActive t | None => false end.

(** ** Vocabulary of the further properties *)

(** The topics of a rover. *)
Definition wrist_topic (r : string) : string := "/" ++ r ++ "/wristAngle".
Definition finger_topic (r : string) : string := "/" ++ r ++ "/fingerAngle".

(** The topics a record of ROS events leaves advertised, oldest first. *)
Fixpoint live_from (open : list string) (log : list ros_event) : list string :=
  match log with
  | [] => open
  | Advertise topic _ :: rest => live_from (open ++ [topic]) rest
  | Shutdown topic :: rest => live_from (remove string_dec topic open) rest
  | Publish _ _ :: rest => live_from open rest
  end.

Definition live (log : list ros_event) : list string := live_from [] log.

(** Calls that keep the rover; calls that leave a joint's joystick vector
    alone. *)
Definition keeps_rover (c : call) : bool :=
  match c with ChangeRovers _ => false | _ => true end.

Definition spares_wrist (c : call) : bool :=
  match c with MoveWrist _ | ChangeRovers _ => false | _ => true end.

Definition spares_fingers (c : call) : bool :=
  match c with MoveFingers _ | ChangeRovers _ => false | _ => true end.

(** A message on one of the two topics of rover [r]. *)
Definition command_for (r : string) (e : ros_event) : Prop :=
  exists data, e = Publish (wrist_topic r) data \/ e = Publish (finger_topic r) data.

(** A timer that runs exactly when [vector] is outside the dead zone, and
    then with the reapply period. *)
Definition follows (p : option QTimer) (vector tolerance : float) (msec : Z) : Prop :=
  exists t, p = Some t /\
            isActive t = negb (SFltb (SFabs vector) tolerance) /\
            (isActive t = true -> interval t = msec).

(** A ready object as the member functions keep it. *)
Record orderly (w : World) : Prop := {
  ord_ready : ready (self w) = true;
  ord_configured : configured (self w);
  ord_wrist_timer :
    follows (joystickGripperWristControlTimer (self w))
            (wristJoystickVector (self w)) (stickCenterTolerance (self w))
            (commandReapplyRate (self w));
  ord_finger_timer :
    follows (joystickGripperFingerControlTimer (self w))
            (fingerJoystickVector (self w)) (stickCenterTolerance (self w))
            (commandReapplyRate (self w));
  ord_wrist_publisher :
    gripperWristAnglePublisher (self w) = Some (wrist_topic (roverName (self w)));
  ord_finger_publisher :
    gripperFingerAnglePublisher (self w) = Some (finger_topic (roverName (self w)));
  ord_live :
    live (ros w) = [wrist_topic (roverName (self w));
                    finger_topic (roverName (self w))]
}.

(** One example object: built for the rover "achilles", then used. *)
Definition achilles_after (calls : list call) : option World :=
  match rover_constructed {| ns := "" |} "achilles" garbage with
  | Returns _ w0 => post (run calls w0)
  | _ => None
  end.

(** * Facts about the arithmetic *)

(** Rounding a non-negative mantissa never produces a NaN. *)
Section Rounding.
Variables prec emax : Z.

Lemma shr_1_nonneg mrs : 0 <= shr_m mrs -> 0 <= shr_m (shr_1 mrs).
Proof.
  destruct mrs as [m r s]; simpl.
  destruct m as [|p|p]; simpl; try lia; destruct p; simpl; lia.
Qed.

Lemma iter_pos_shr_1_nonneg n : forall mrs,
  0 <= shr_m mrs -> 0 <= shr_m (iter_pos shr_1 n mrs).
Proof.
  induction n as [n IH|n IH|]; simpl; intros mrs H.
  - apply IH, IH, shr_1_nonneg, H.
  - apply IH, IH, H.
  - apply shr_1_nonneg, H.
Qed.

Lemma shr_record_of_loc_m m l : shr_m (shr_record_of_loc m l) = m.
Proof. destruct l as [|[]]; reflexivity. Qed.

Lemma shr_fexp_nonneg m e l :
  0 <= m -> 0 <= shr_m (fst (shr_fexp prec emax m e l)).
Proof.
  intros H. unfold shr_fexp, shr.
  destruct (fexp prec emax (Zdigits2 m + e) - e) as [|n|n]; simpl;
    rewrite ?shr_record_of_loc_m; try assumption.
  apply iter_pos_shr_1_nonneg. now rewrite shr_record_of_loc_m.
Qed.

Lemma round_nearest_even_nonneg m l : 0 <= m -> 0 <= round_nearest_even m l.
Proof.
  intros H. destruct l as [|[]]; simpl; try lia.
  destruct (Z.even m); lia.
Qed.

Lemma binary_round_aux_not_nan sx mx ex lx :
  0 <= mx -> binary_round_aux prec emax sx mx ex lx <> S754_nan.
Proof.
  intros H. unfold binary_round_aux.
  pose proof (shr_fexp_nonneg mx ex lx H) as H1.
  destruct (shr_fexp prec emax mx ex lx) as [mrs1 e1]. simpl in H1.
  pose proof (shr_fexp_nonneg
                (round_nearest_even (shr_m mrs1) (loc_of_shr_record mrs1)) e1
                loc_Exact (round_nearest_even_nonneg _ _ H1)) as H2.
  destruct (shr_fexp prec emax _ e1 loc_Exact) as [mrs2 e2]. simpl in H2.
  destruct (shr_m mrs2) as [|p|p]; try discriminate; try lia.
  destruct (e2 <=? emax - prec); discriminate.
Qed.

Lemma binary_round_not_nan sx mx ex : binary_round prec emax sx mx ex <> S754_nan.
Proof.
  unfold binary_round.
  destruct (shl_align mx ex _) as [mz ez].
  apply binary_round_aux_not_nan. lia.
Qed.

Lemma binary_normalize_not_nan m e szero :
  binary_normalize prec emax m e szero <> S754_nan.
Proof.
  destruct m; simpl; try discriminate; apply binary_round_not_nan.
Qed.

Lemma SFmul_not_nan x y :
  is_nan x = false -> is_finite y = true -> y <> S754_zero false -> y <> S754_zero true ->
  is_nan (SFmul prec emax x y) = false.
Proof.
  intros Hx Hy Hz1 Hz2.
  destruct x as [sx|sx| |sx mx ex], y as [[]|sy| |sy my ey];
    try discriminate; try congruence; try reflexivity.
  simpl.
  pose proof (binary_round_aux_not_nan (xorb sx sy) (Z.pos (mx * my)) (ex + ey) loc_Exact) as H.
  destruct (binary_round_aux _ _ _ _ _ _); try reflexivity. exfalso; apply H; [lia|reflexivity].
Qed.

Lemma SFadd_not_nan x y :
  is_finite x = true -> is_nan y = false -> is_nan (SFadd prec emax x y) = false.
Proof.
  intros Hx Hy.
  destruct x as [sx|sx| |sx mx ex], y as [sy|sy| |sy my ey];
    try discriminate; try reflexivity.
  - destruct sx, sy; reflexivity.
  - unfold SFadd.
    match goal with |- is_nan (binary_normalize _ _ ?m ?e ?s) = false =>
      pose proof (binary_normalize_not_nan m e s) as H;
      destruct (binary_normalize prec emax m e s) end; try reflexivity.
    now elim H.
Qed.
End Rounding.

Lemma SFcompare_antisym x y :
  SFcompare y x = option_map CompOpp (SFcompare x y).
Proof.
  destruct x as [sx|sx| |sx mx ex], y as [sy|sy| |sy my ey]; simpl;
    try reflexivity;
    try (destruct sx; reflexivity); try (destruct sy; reflexivity);
    try (destruct sx, sy; reflexivity).
  destruct sx, sy; try reflexivity;
    rewrite (Z.compare_antisym ex ey); destruct (ex ?= ey); simpl;
    try reflexivity;
    rewrite (Pos.compare_cont_antisym mx my Eq); reflexivity.
Qed.

Lemma SFcompare_total x y :
  is_nan x = false -> is_nan y = false -> SFcompare x y <> None.
Proof. destruct x, y; simpl; congruence. Qed.

Lemma SFltb_false_SFleb x y :
  is_nan x = false -> is_nan y = false -> SFltb x y = false -> SFleb y x = true.
Proof.
  intros Hx Hy. unfold SFltb, SFleb. rewrite (SFcompare_antisym x y).
  pose proof (SFcompare_total x y Hx Hy) as T.
  destruct (SFcompare x y) as [[]|]; simpl; congruence.
Qed.

Lemma SFltb_SFleb x y : SFltb x y = true -> SFleb x y = true.
Proof.
  unfold SFltb, SFleb. destruct (SFcompare x y) as [[]|]; congruence.
Qed.

Lemma SFleb_not_nan_l x y : SFleb x y = true -> is_nan x = false.
Proof. destruct x; try reflexivity. discriminate. Qed.

Lemma SFleb_not_nan_r x y : SFleb x y = true -> is_nan y = false.
Proof. destruct y; try reflexivity. destruct x; discriminate. Qed.

Lemma SFleb_between_finite lo x hi :
  is_finite lo = true -> is_finite hi = true ->
  SFleb lo x = true -> SFleb x hi = true -> is_finite x = true.
Proof.
  destruct x as [s|[]| |s m e]; try reflexivity; intros Hlo Hhi H1 H2.
  - destruct lo as [|[]| |]; discriminate.
  - destruct hi as [|[]| |]; discriminate.
  - destruct lo; discriminate.
Qed.

(** The [float] nearest to a decimal is reached either way: directly, or
    through the [double] the literal denotes. *)
Lemma float_literals_agree :
  map (fun n => F32.of_double (F64.literal n 1)) [0; 1; 2; 3; 4; 5; 10; 20] =
  map (fun n => F32.literal n 1) [0; 1; 2; 3; 4; 5; 10; 20].
Proof. vm_compute. reflexivity. Qed.

(** * Facts about the member functions *)

(** Run the monad's plumbing and the record projections, never the floats. *)
Ltac exec :=
  cbn -[F32.add F32.mul F32.of_Z F32.of_double F32.literal F64.literal
        SFltb SFleb SFabs SFopp fabs_lt_0_001 String.append app].

Ltac split_ifs :=
  repeat match goal with
         | |- context [if ?c then _ else _] => destruct c eqn:?; exec
         end.

Lemma publish_sent p data w :
  publish p data w = Returns tt {| self := self w; ros := ros w ++ sent p data |}.
Proof.
  destruct w as [o r], p as [topic|]; simpl; [reflexivity|].
  unfold ret. now rewrite app_nil_r.
Qed.

Lemma wrist_slot_returns w :
  joystickGripperWristControlTimerEventHandler w =
  Returns tt
    {| self := set_wristAngle (wrist_tick_angle (self w)) (self w);
       ros := ros w ++ sent (gripperWristAnglePublisher (self w))
                            (wrist_tick_angle (self w)) |}.
Proof.
  destruct w as [o r].
  unfold joystickGripperWristControlTimerEventHandler, wrist_tick_angle,
    snapped, clamped, integrated.
  exec. split_ifs; rewrite publish_sent; reflexivity.
Qed.

Lemma finger_slot_returns w :
  joystickGripperFingerControlTimerEventHandler w =
  Returns tt
    {| self := set_fingerAngle (finger_tick_angle (self w)) (self w);
       ros := ros w ++ sent (gripperFingerAnglePublisher (self w))
                            (finger_tick_angle (self w)) |}.
Proof.
  destruct w as [o r].
  unfold joystickGripperFingerControlTimerEventHandler, finger_tick_angle,
    snapped, clamped, integrated.
  exec. split_ifs; rewrite publish_sent; reflexivity.
Qed.

Lemma moveWrist_not_ready vec w :
  ready (self w) = false ->
  moveWrist vec w = Throws JoystickGripperInterfaceNotReadyException w.
Proof. intros H. unfold moveWrist. exec. now rewrite H. Qed.

Lemma moveFingers_not_ready vec w :
  ready (self w) = false ->
  moveFingers vec w = Throws JoystickGripperInterfaceNotReadyException w.
Proof. intros H. unfold moveFingers. exec. now rewrite H. Qed.

Lemma moveWrist_ready vec w :
  ready (self w) = true ->
  moveWrist vec w =
  match joystickGripperWristControlTimer (self w) with
  | Some t =>
      Returns tt
        {| self := set_joystickGripperWristControlTimer
                     (Some (steered (SFopp vec) (stickCenterTolerance (self w))
                              (commandReapplyRate (self w)) t))
                     (set_wristJoystickVector (SFopp vec) (self w));
           ros := ros w |}
  | None => Undefined
  end.
Proof.
  intros H. destruct w as [o r]. unfold moveWrist, steered. exec.
  simpl in H. rewrite H. exec.
  destruct (joystickGripperWristControlTimer o); split_ifs; reflexivity.
Qed.

Lemma moveFingers_ready vec w :
  ready (self w) = true ->
  moveFingers vec w =
  match joystickGripperFingerControlTimer (self w) with
  | Some t =>
      Returns tt
        {| self := set_joystickGripperFingerControlTimer
                     (Some (steered vec (stickCenterTolerance (self w))
                              (commandReapplyRate (self w)) t))
                     (set_fingerJoystickVector vec (self w));
           ros := ros w |}
  | None => Undefined
  end.
Proof.
  intros H. destruct w as [o r]. unfold moveFingers, steered. exec.
  simpl in H. rewrite H. exec.
  destruct (joystickGripperFingerControlTimer o); split_ifs; reflexivity.
Qed.

(** The object [changeRovers] leaves behind when both timers exist. *)
Lemma changeRovers_allocated r w tw tf :
  joystickGripperWristControlTimer (self w) = Some tw ->
  joystickGripperFingerControlTimer (self w) = Some tf ->
  changeRovers r w =
  Returns tt
    {| self :=
         {| ready := true;
            nh := nh (self w);
            roverName := r;
            gripperWristAnglePublisher := Some ("/" ++ r ++ "/wristAngle");
            gripperFingerAnglePublisher := Some ("/" ++ r ++ "/fingerAngle");
            joystickGripperWristControlTimer := Some (QTimer_stop tw);
            joystickGripperFingerControlTimer := Some (QTimer_stop tf);
            wristAngle := F32.of_Z 0;
            wristAngleChangeRate := wristAngleChangeRate (self w);
            wristAngleMax := wristAngleMax (self w);
            wristAngleMin := wristAngleMin (self w);
            wristJoystickVector := F32.of_double (F64.literal 0 1);
            fingerAngle := F32.of_Z 0;
            fingerAngleChangeRate := fingerAngleChangeRate (self w);
            fingerAngleMax := fingerAngleMax (self w);
            fingerAngleMin := fingerAngleMin (self w);
            fingerJoystickVector := F32.of_double (F64.literal 0 1);
            commandReapplyRate := commandReapplyRate (self w);
            stickCenterTolerance := stickCenterTolerance (self w) |};
       ros := ros w ++ closed (gripperWristAnglePublisher (self w))
                    ++ closed (gripperFingerAnglePublisher (self w))
                    ++ [Advertise ("/" ++ r ++ "/wristAngle") 10;
                        Advertise ("/" ++ r ++ "/fingerAngle") 10] |}.
Proof.
  destruct w as [o l]. intros Hw Hf. unfold changeRovers. exec.
  simpl in Hw, Hf. rewrite Hw. exec. rewrite Hf. exec.
  destruct (gripperWristAnglePublisher o); exec;
    destruct (gripperFingerAnglePublisher o); exec;
    rewrite <- ?app_assoc; reflexivity.
Qed.

Lemma changeRovers_unallocated r w :
  joystickGripperWristControlTimer (self w) = None ->
  changeRovers r w = Undefined.
Proof.
  destruct w as [o l]. intros Hw. unfold changeRovers. exec.
  simpl in Hw. now rewrite Hw.
Qed.

(** * The clamp *)

Section Clamp.
Variables lo hi rate : float.
Hypothesis lo_finite : is_finite lo = true.
Hypothesis hi_finite : is_finite hi = true.
Hypothesis lo_le_hi : SFleb lo hi = true.
Hypothesis zero_within : within lo hi (F32.literal 0 1) = true.
Hypothesis rate_finite : is_finite rate = true.
Hypothesis rate_not_zero : forall s, rate <> S754_zero s.

Lemma SFleb_refl_finite x : is_finite x = true -> SFleb x x = true.
Proof.
  destruct x as [s|s| |s m e]; try discriminate; intros _; [reflexivity|].
  unfold SFleb; simpl.
  destruct s; rewrite Z.compare_refl, Pos.compare_cont_refl; reflexivity.
Qed.

Lemma clamped_within a : is_nan a = false -> within lo hi (clamped lo hi a) = true.
Proof.
  intros Ha. unfold clamped, within.
  assert (is_nan lo = false) by (destruct lo; easy).
  assert (is_nan hi = false) by (destruct hi; easy).
  destruct (SFltb hi a) eqn:Hhi.
  - now rewrite lo_le_hi, SFleb_refl_finite.
  - destruct (SFltb a lo) eqn:Hlo.
    + now rewrite lo_le_hi, SFleb_refl_finite.
    + rewrite (SFltb_false_SFleb a lo), (SFltb_false_SFleb hi a); auto.
Qed.

Lemma snapped_within a : within lo hi a = true -> within lo hi (snapped a) = true.
Proof. intros H. unfold snapped. now destruct (fabs_lt_0_001 a). Qed.

Lemma within_finite a : within lo hi a = true -> is_finite a = true.
Proof.
  unfold within. intros H. apply andb_prop in H as [H1 H2].
  now apply (SFleb_between_finite lo a hi).
Qed.

Lemma integrated_not_nan angle vec :
  within lo hi angle = true -> is_nan vec = false ->
  is_nan (integrated angle vec rate) = false.
Proof.
  intros Ha Hv. unfold integrated, F32.add, F32.mul.
  apply SFadd_not_nan; [now apply within_finite|].
  apply SFmul_not_nan; auto.
Qed.

Lemma tick_within angle vec :
  within lo hi angle = true -> is_nan vec = false ->
  within lo hi (snapped (clamped lo hi (integrated angle vec rate))) = true.
Proof.
  intros Ha Hv. apply snapped_within, clamped_within.
  now apply integrated_not_nan.
Qed.
End Clamp.

(** * Construction and the states between calls *)

Lemma default_constructed_returns indet :
  default_constructed indet =
  Returns tt {| self := set_ready false (storage indet); ros := [] |}.
Proof. reflexivity. Qed.

Lemma rover_constructed_returns nh0 r indet :
  rover_constructed nh0 r indet =
  Returns tt
    {| self :=
         {| ready := true;
            nh := nh0;
            roverName := r;
            gripperWristAnglePublisher := Some ("/" ++ r ++ "/wristAngle");
            gripperFingerAnglePublisher := Some ("/" ++ r ++ "/fingerAngle");
            joystickGripperWristControlTimer := Some QTimer_new;
            joystickGripperFingerControlTimer := Some QTimer_new;
            wristAngle := F32.of_Z 0;
            wristAngleChangeRate := F32.of_double (F64.literal 1 1);
            wristAngleMax := F32.of_double (F64.literal 10 1);
            wristAngleMin := F32.of_double (F64.literal 0 1);
            wristJoystickVector := F32.of_double (F64.literal 0 1);
            fingerAngle := F32.of_Z 0;
            fingerAngleChangeRate := F32.of_double (F64.literal 1 1);
            fingerAngleMax := F32.of_double (F64.literal 20 1);
            fingerAngleMin := F32.of_double (F64.literal 0 1);
            fingerJoystickVector := F32.of_double (F64.literal 0 1);
            commandReapplyRate := 100;
            stickCenterTolerance := F32.of_double (F64.literal 5 2) |};
       ros := [Advertise ("/" ++ r ++ "/wristAngle") 10;
               Advertise ("/" ++ r ++ "/fingerAngle") 10] |}.
Proof. reflexivity. Qed.

Lemma rover_constructed_steady nh0 r indet w :
  rover_constructed nh0 r indet = Returns tt w -> steady (self w).
Proof.
  rewrite rover_constructed_returns. intros [= <-].
  repeat split; reflexivity.
Qed.

Lemma configured_same o o' :
  wristAngleMin o' = wristAngleMin o -> wristAngleMax o' = wristAngleMax o ->
  wristAngleChangeRate o' = wristAngleChangeRate o ->
  fingerAngleMin o' = fingerAngleMin o -> fingerAngleMax o' = fingerAngleMax o ->
  fingerAngleChangeRate o' = fingerAngleChangeRate o ->
  commandReapplyRate o' = commandReapplyRate o ->
  stickCenterTolerance o' = stickCenterTolerance o ->
  configured o -> configured o'.
Proof. intros ? ? ? ? ? ? ? ? []. split; congruence. Qed.

Lemma allocated_timers o :
  allocated o = true ->
  exists tw tf, joystickGripperWristControlTimer o = Some tw /\
                joystickGripperFingerControlTimer o = Some tf.
Proof.
  unfold allocated.
  destruct (joystickGripperWristControlTimer o) as [tw|]; [|discriminate].
  destruct (joystickGripperFingerControlTimer o) as [tf|]; [|discriminate].
  eauto.
Qed.

(** Every call keeps an object sound. *)
Lemma dispatch_sound c w w' :
  sound (self w) -> post (dispatch c w) = Some w' -> sound (self w').
Proof.
  unfold sound. intros S.
  destruct (ready (self w)) eqn:R.
  - destruct S as [A C]. destruct (allocated_timers _ A) as (tw & tf & Hw & Hf).
    assert (Al : forall o', joystickGripperWristControlTimer o' <> None ->
                            joystickGripperFingerControlTimer o' <> None ->
                            allocated o' = true).
    { intros o'. unfold allocated.
      destruct (joystickGripperWristControlTimer o'),
               (joystickGripperFingerControlTimer o'); congruence. }
    destruct c as [vec|vec|r| |]; simpl dispatch.
    + rewrite (moveWrist_ready _ _ R), Hw. intros [= <-]. simpl. rewrite R.
      split; [apply Al; simpl; congruence|].
      eapply configured_same; [..|exact C]; reflexivity.
    + rewrite (moveFingers_ready _ _ R), Hf. intros [= <-]. simpl. rewrite R.
      split; [apply Al; simpl; congruence|].
      eapply configured_same; [..|exact C]; reflexivity.
    + rewrite (changeRovers_allocated r w tw tf Hw Hf). intros [= <-]. simpl.
      split; [reflexivity|].
      eapply configured_same; [..|exact C]; reflexivity.
    + unfold bind, this. rewrite Hw. simpl on_timeout.
      destruct (isActive tw).
      * rewrite wrist_slot_returns. intros [= <-]. simpl. rewrite R.
        split; [apply Al; simpl; congruence|].
        eapply configured_same; [..|exact C]; reflexivity.
      * intros [= <-]. rewrite R. auto.
    + unfold bind, this. rewrite Hf. simpl on_timeout.
      destruct (isActive tf).
      * rewrite finger_slot_returns. intros [= <-]. simpl. rewrite R.
        split; [apply Al; simpl; congruence|].
        eapply configured_same; [..|exact C]; reflexivity.
      * intros [= <-]. rewrite R. auto.
  - destruct c as [vec|vec|r| |]; simpl dispatch.
    + rewrite (moveWrist_not_ready _ _ R). intros [= <-]. now rewrite R.
    + rewrite (moveFingers_not_ready _ _ R). intros [= <-]. now rewrite R.
    + now rewrite (changeRovers_unallocated _ _ S).
    + unfold bind, this. rewrite S. intros [= <-]. now rewrite R.
    + unfold bind, this.
      destruct (joystickGripperFingerControlTimer (self w)) as [tf|];
        simpl on_timeout; [destruct (isActive tf)|].
      * rewrite finger_slot_returns. intros [= <-]. simpl. now rewrite R.
      * intros [= <-]. now rewrite R.
      * intros [= <-]. now rewrite R.
Qed.

Lemma reachable_sound w : reachable w -> sound (self w).
Proof.
  induction 1 as [indet w H|nh0 r indet w H|c w w' _ IH H].
  - rewrite default_constructed_returns in H. injection H as <-. reflexivity.
  - rewrite rover_constructed_returns in H. injection H as <-.
    unfold sound; simpl. repeat split; reflexivity.
  - eapply dispatch_sound; eassumption.
Qed.

(** A ready object that can be reached has both timers and the constructor's
    parameters. *)
Lemma reachable_ready w :
  reachable w -> ready (self w) = true ->
  configured (self w) /\
  exists tw tf, joystickGripperWristControlTimer (self w) = Some tw /\
                joystickGripperFingerControlTimer (self w) = Some tf.
Proof.
  intros H R. apply reachable_sound in H. unfold sound in H. rewrite R in H.
  destruct H as [A C]. split; [exact C|]. now apply allocated_timers.
Qed.

(** * Angles stay inside their limits *)

Lemma wrist_tick_limits o :
  configured o -> is_nan (wristJoystickVector o) = false ->
  within (wristAngleMin o) (wristAngleMax o) (wristAngle o) = true ->
  within (wristAngleMin o) (wristAngleMax o) (wrist_tick_angle o) = true.
Proof.
  intros C Hv Ha. unfold wrist_tick_angle. destruct C as [E1 E2 E3 _ _ _ _ _].
  rewrite E1, E2, E3 in *.
  apply tick_within; try reflexivity; try assumption.
  intros s; vm_compute; discriminate.
Qed.

Lemma finger_tick_limits o :
  configured o -> is_nan (fingerJoystickVector o) = false ->
  within (fingerAngleMin o) (fingerAngleMax o) (fingerAngle o) = true ->
  within (fingerAngleMin o) (fingerAngleMax o) (finger_tick_angle o) = true.
Proof.
  intros C Hv Ha. unfold finger_tick_angle. destruct C as [_ _ _ E1 E2 E3 _ _].
  rewrite E1, E2, E3 in *.
  apply tick_within; try reflexivity; try assumption.
  intros s; vm_compute; discriminate.
Qed.

Lemma is_nan_SFopp x : is_nan (SFopp x) = is_nan x.
Proof. now destruct x. Qed.

(** A call with a numeric joystick value returns and keeps a steady object
    steady. *)
Lemma dispatch_steady c w :
  numeric c = true -> steady (self w) ->
  exists w', dispatch c w = Returns tt w' /\ steady (self w').
Proof.
  intros N [R A C Vw Vf L].
  destruct (allocated_timers _ A) as (tw & tf & Hw & Hf).
  pose proof L as L'. unfold in_limits in L'.
  apply andb_prop in L' as [Lw Lf].
  destruct c as [vec|vec|r| |]; simpl dispatch.
  - rewrite (moveWrist_ready _ _ R), Hw. eexists; split; [reflexivity|].
    simpl in N. apply negb_true_iff in N.
    split; simpl; try assumption.
    + unfold allocated; simpl. now rewrite Hf.
    + eapply configured_same; [..|exact C]; reflexivity.
    + now rewrite is_nan_SFopp.
  - rewrite (moveFingers_ready _ _ R), Hf. eexists; split; [reflexivity|].
    simpl in N. apply negb_true_iff in N.
    split; simpl; try assumption.
    + unfold allocated; simpl. now rewrite Hw.
    + eapply configured_same; [..|exact C]; reflexivity.
  - rewrite (changeRovers_allocated r w tw tf Hw Hf).
    eexists; split; [reflexivity|].
    split; simpl; try reflexivity.
    + eapply configured_same; [..|exact C]; reflexivity.
    + unfold in_limits; simpl. destruct C as [E1 E2 _ E4 E5 _ _ _].
      rewrite E1, E2, E4, E5. reflexivity.
  - unfold bind, this. rewrite Hw. simpl on_timeout.
    destruct (isActive tw).
    + rewrite wrist_slot_returns. eexists; split; [reflexivity|].
      split; simpl; try assumption.
      * eapply configured_same; [..|exact C]; reflexivity.
      * unfold in_limits; simpl. rewrite Lf, andb_true_r.
        now apply wrist_tick_limits.
    + eexists; split; [reflexivity|]. now split.
  - unfold bind, this. rewrite Hf. simpl on_timeout.
    destruct (isActive tf).
    + rewrite finger_slot_returns. eexists; split; [reflexivity|].
      split; simpl; try assumption.
      * eapply configured_same; [..|exact C]; reflexivity.
      * unfold in_limits; simpl. rewrite Lw. simpl.
        now apply finger_tick_limits.
    + eexists; split; [reflexivity|]. now split.
Qed.

Lemma run_steady calls : forall w,
  forallb numeric calls = true -> steady (self w) ->
  exists w', run calls w = Returns tt w' /\ steady (self w').
Proof.
  induction calls as [|c rest IH]; intros w N S.
  - exists w. split; [reflexivity|exact S].
  - simpl in N. apply andb_prop in N as [Nc Nrest].
    destruct (dispatch_steady c w Nc S) as (w1 & E1 & S1).
    destruct (IH w1 Nrest S1) as (w2 & E2 & S2).
    exists w2. split; [|exact S2].
    simpl. unfold bind. now rewrite E1.
Qed.

(** * The properties *)

(** C1, as stated, fails: a NaN from the joystick passes both comparisons of
    the clamp, so after [moveWrist(NaN)] the next tick stores a wrist angle
    that is not inside [0.0, 1.0]. *)
Lemma nan_escapes_the_clamp :
  exists w0 w,
    rover_constructed {| ns := "" |} "achilles" garbage = Returns tt w0 /\
    run [MoveWrist S754_nan; WristTimeout] w0 = Returns tt w /\
    wristAngle (self w) = S754_nan /\
    within (F32.of_double (F64.literal 0 1)) (F32.of_double (F64.literal 10 1))
           (wristAngle (self w)) = false.
Proof.
  do 2 eexists.
  split; [vm_compute; reflexivity|].
  split; [vm_compute; reflexivity|].
  split; vm_compute; reflexivity.
Qed.

(** C1, amended: from the rover constructor, after every sequence of calls
    ([moveWrist], [moveFingers], [changeRovers] and timer ticks in any order)
    whose joystick values are not NaN, every call has returned and
    [0.0 <= wristAngle <= 1.0] and [0.0 <= fingerAngle <= 2.0]. *)
Theorem angles_within_limits nh0 r indet calls :
  forallb numeric calls = true ->
  exists w0 w,
    rover_constructed nh0 r indet = Returns tt w0 /\
    run calls w0 = Returns tt w /\
    within (F32.of_double (F64.literal 0 1)) (F32.of_double (F64.literal 10 1))
           (wristAngle (self w)) = true /\
    within (F32.of_double (F64.literal 0 1)) (F32.of_double (F64.literal 20 1))
           (fingerAngle (self w)) = true.
Proof.
  intros N.
  destruct (rover_constructed nh0 r indet) as [[] w0| |] eqn:E0;
    try (rewrite rover_constructed_returns in E0; discriminate).
  pose proof (rover_constructed_steady _ _ _ _ E0) as S0.
  destruct (run_steady calls w0 N S0) as (w & E & [_ _ C _ _ L]).
  exists w0, w. split; [reflexivity|]. split; [exact E|].
  unfold in_limits in L. apply andb_prop in L.
  destruct C as [E1 E2 _ E4 E5 _ _ _].
  now rewrite E1, E2, E4, E5 in L.
Qed.

Lemma angles_within_limits_witness :
  exists w0 w,
    rover_constructed {| ns := "" |} "achilles" garbage = Returns tt w0 /\
    run [MoveWrist (F32.of_double (SFopp (F64.literal 10 1)));
         WristTimeout; WristTimeout; WristTimeout; WristTimeout; WristTimeout;
         WristTimeout; WristTimeout; WristTimeout; WristTimeout; WristTimeout;
         WristTimeout; MoveFingers (S754_infinity false); FingerTimeout;
         MoveFingers (S754_infinity true); FingerTimeout; FingerTimeout;
         MoveWrist (F32.of_double (F64.literal 2 2)); WristTimeout] w0
    = Returns tt w /\
    within (F32.of_double (F64.literal 0 1)) (F32.of_double (F64.literal 10 1))
           (wristAngle (self w)) = true /\
    within (F32.of_double (F64.literal 0 1)) (F32.of_double (F64.literal 20 1))
           (fingerAngle (self w)) = true.
Proof. apply angles_within_limits. reflexivity. Defined.

(** C2: [moveWrist] and [moveFingers], for any value, throw
    [JoystickGripperInterfaceNotReadyException] exactly when [ready] is
    false, and then the object and everything it has sent are as before the
    call; when [ready] is true they throw nothing. *)
Theorem not_ready_throws vec w :
  thrown (moveWrist vec w) =
    (if ready (self w) then None
     else Some (JoystickGripperInterfaceNotReadyException, w)) /\
  thrown (moveFingers vec w) =
    (if ready (self w) then None
     else Some (JoystickGripperInterfaceNotReadyException, w)).
Proof.
  destruct (ready (self w)) eqn:R.
  - rewrite (moveWrist_ready _ _ R), (moveFingers_ready _ _ R).
    destruct (joystickGripperWristControlTimer (self w)),
             (joystickGripperFingerControlTimer (self w)); split; reflexivity.
  - rewrite (moveWrist_not_ready _ _ R), (moveFingers_not_ready _ _ R).
    split; reflexivity.
Qed.

(** C4: on a ready object, [moveWrist(v)] stores [-v] as the wrist vector and
    [moveFingers(v)] stores [v] as the finger vector. *)
Theorem wrist_vector_is_negated w v :
  reachable w -> ready (self w) = true ->
  exists ww wf,
    moveWrist v w = Returns tt ww /\ wristJoystickVector (self ww) = SFopp v /\
    moveFingers v w = Returns tt wf /\ fingerJoystickVector (self wf) = v.
Proof.
  intros H R. destruct (reachable_ready w H R) as (_ & tw & tf & Hw & Hf).
  rewrite (moveWrist_ready _ _ R), (moveFingers_ready _ _ R), Hw, Hf.
  do 2 eexists. repeat split.
Qed.

Lemma wrist_vector_is_negated_witness :
  exists w,
    rover_constructed {| ns := "" |} "achilles" garbage = Returns tt w /\
    exists ww wf,
      moveWrist (F32.of_double (F64.literal 75 2)) w = Returns tt ww /\
      wristJoystickVector (self ww) = SFopp (F32.of_double (F64.literal 75 2)) /\
      moveFingers (F32.of_double (F64.literal 75 2)) w = Returns tt wf /\
      fingerJoystickVector (self wf) = F32.of_double (F64.literal 75 2).
Proof.
  eexists. split; [reflexivity|].
  apply wrist_vector_is_negated; [|reflexivity].
  apply (reach_rover {| ns := "" |} "achilles" garbage).
  vm_compute. reflexivity.
Defined.

(** C5: in both timer slots, when the integrated and clamped angle has a
    magnitude below 0.001, the angle stored is exactly [+0.0] and the message
    published on the joint's topic carries exactly [+0.0]. *)
Theorem snap_to_zero w :
  (fabs_lt_0_001
     (clamped (wristAngleMin (self w)) (wristAngleMax (self w))
        (integrated (wristAngle (self w)) (wristJoystickVector (self w))
           (wristAngleChangeRate (self w)))) = true ->
   exists w',
     joystickGripperWristControlTimerEventHandler w = Returns tt w' /\
     wristAngle (self w') = S754_zero false /\
     forall topic, gripperWristAnglePublisher (self w) = Some topic ->
                   ros w' = (ros w ++ [Publish topic (S754_zero false)])%list) /\
  (fabs_lt_0_001
     (clamped (fingerAngleMin (self w)) (fingerAngleMax (self w))
        (integrated (fingerAngle (self w)) (fingerJoystickVector (self w))
           (fingerAngleChangeRate (self w)))) = true ->
   exists w',
     joystickGripperFingerControlTimerEventHandler w = Returns tt w' /\
     fingerAngle (self w') = S754_zero false /\
     forall topic, gripperFingerAnglePublisher (self w) = Some topic ->
                   ros w' = (ros w ++ [Publish topic (S754_zero false)])%list).
Proof.
  split; intros H.
  - rewrite wrist_slot_returns. eexists. split; [reflexivity|].
    unfold wrist_tick_angle, snapped. rewrite H. simpl.
    split; [reflexivity|]. intros topic ->. reflexivity.
  - rewrite finger_slot_returns. eexists. split; [reflexivity|].
    unfold finger_tick_angle, snapped. rewrite H. simpl.
    split; [reflexivity|]. intros topic ->. reflexivity.
Qed.

Lemma snap_to_zero_witness :
  exists w0 w,
    rover_constructed {| ns := "" |} "achilles" garbage = Returns tt w0 /\
    run [MoveWrist (F32.of_double (SFopp (F64.literal 55 3))); WristTimeout;
         MoveWrist (F32.of_double (F64.literal 5 2))] w0 = Returns tt w /\
    wristAngle (self w) = S754_finite false 11811160 (-31) /\
    clamped (wristAngleMin (self w)) (wristAngleMax (self w))
      (integrated (wristAngle (self w)) (wristJoystickVector (self w))
         (wristAngleChangeRate (self w))) = S754_finite false 8589928 (-34) /\
    (exists w',
       joystickGripperWristControlTimerEventHandler w = Returns tt w' /\
       wristAngle (self w') = S754_zero false /\
       forall topic, gripperWristAnglePublisher (self w) = Some topic ->
                     ros w' = (ros w ++ [Publish topic (S754_zero false)])%list) /\
    (exists w',
       joystickGripperFingerControlTimerEventHandler w = Returns tt w' /\
       fingerAngle (self w') = S754_zero false /\
       forall topic, gripperFingerAnglePublisher (self w) = Some topic ->
                     ros w' = (ros w ++ [Publish topic (S754_zero false)])%list).
Proof.
  do 2 eexists.
  split; [vm_compute; reflexivity|].
  split; [vm_compute; reflexivity|].
  split; [vm_compute; reflexivity|].
  split; [vm_compute; reflexivity|].
  split.
  - apply (proj1 (snap_to_zero _)). vm_compute. reflexivity.
  - apply (proj2 (snap_to_zero _)). vm_compute. reflexivity.
Defined.

(** C6, as stated, fails: on a default-constructed object the timer pointers
    address no timer, and two consecutive [changeRovers] calls leave no
    defined state at all. *)
Lemma changeRovers_twice_on_default_constructed :
  exists w,
    default_constructed garbage = Returns tt w /\
    run [ChangeRovers "achilles"; ChangeRovers "ajax"] w = Undefined.
Proof. eexists. split; vm_compute; reflexivity. Qed.

(** C6, amended: from every state in which both timers exist, after any
    number of consecutive [changeRovers] calls, the last one for rover [r],
    both angles and both joystick vectors are [+0.0], [ready] is true, both
    timers are stopped, and the publishers are bound to [/r/wristAngle] and
    [/r/fingerAngle]; one more [changeRovers r] leaves the object as it is. *)
Theorem changeRovers_resets w earlier r :
  allocated (self w) = true ->
  exists w',
    run (map ChangeRovers (earlier ++ [r])) w = Returns tt w' /\
    wristAngle (self w') = S754_zero false /\
    fingerAngle (self w') = S754_zero false /\
    wristJoystickVector (self w') = S754_zero false /\
    fingerJoystickVector (self w') = S754_zero false /\
    ready (self w') = true /\
    stopped (joystickGripperWristControlTimer (self w')) = true /\
    stopped (joystickGripperFingerControlTimer (self w')) = true /\
    roverName (self w') = r /\
    gripperWristAnglePublisher (self w') = Some ("/" ++ r ++ "/wristAngle") /\
    gripperFingerAnglePublisher (self w') = Some ("/" ++ r ++ "/fingerAngle") /\
    exists w'', changeRovers r w' = Returns tt w'' /\ self w'' = self w'.
Proof.
  revert w. induction earlier as [|r0 rest IH]; intros w A.
  - destruct (allocated_timers _ A) as (tw & tf & Hw & Hf).
    simpl. unfold bind. rewrite (changeRovers_allocated r w tw tf Hw Hf).
    eexists. split; [reflexivity|]. simpl.
    repeat (split; [reflexivity|]).
    eexists. split; [apply (changeRovers_allocated r _ (QTimer_stop tw) (QTimer_stop tf)); reflexivity|].
    reflexivity.
  - destruct (allocated_timers _ A) as (tw & tf & Hw & Hf).
    simpl. unfold bind at 1. rewrite (changeRovers_allocated r0 w tw tf Hw Hf).
    apply IH. unfold allocated. reflexivity.
Qed.

Lemma changeRovers_resets_witness :
  exists w0 w1,
    rover_constructed {| ns := "" |} "achilles" garbage = Returns tt w0 /\
    run [MoveWrist (F32.of_double (SFopp (F64.literal 10 1)));
         WristTimeout; WristTimeout;
         MoveFingers (F32.of_double (F64.literal 10 1)); FingerTimeout] w0
      = Returns tt w1 /\
    wristAngle (self w1) = F32.literal 2 1 /\
    allocated (self w1) = true /\
    exists w',
      run (map ChangeRovers (["ajax"; "achilles"] ++ ["aeneas"])) w1
        = Returns tt w' /\
      wristAngle (self w') = S754_zero false /\
      fingerAngle (self w') = S754_zero false /\
      wristJoystickVector (self w') = S754_zero false /\
      fingerJoystickVector (self w') = S754_zero false /\
      ready (self w') = true /\
      stopped (joystickGripperWristControlTimer (self w')) = true /\
      stopped (joystickGripperFingerControlTimer (self w')) = true /\
      roverName (self w') = "aeneas" /\
      gripperWristAnglePublisher (self w') = Some ("/" ++ "aeneas" ++ "/wristAngle") /\
      gripperFingerAnglePublisher (self w') = Some ("/" ++ "aeneas" ++ "/fingerAngle") /\
      exists w'', changeRovers "aeneas" w' = Returns tt w'' /\ self w'' = self w'.
Proof.
  do 2 eexists.
  split; [vm_compute; reflexivity|].
  split; [vm_compute; reflexivity|].
  split; [vm_compute; reflexivity|].
  split; [vm_compute; reflexivity|].
  apply changeRovers_resets. vm_compute. reflexivity.
Defined.

(** C7, as stated, fails: [changeRovers] on a default-constructed object,
    whose [ready] is false, dereferences a timer pointer that addresses no
    timer; the call does not complete and establishes nothing. *)
Lemma changeRovers_on_default_constructed :
  exists w,
    default_constructed garbage = Returns tt w /\
    ready (self w) = false /\
    changeRovers "achilles" w = Undefined.
Proof. eexists. repeat split; vm_compute; reflexivity. Qed.

(** C7, amended: [changeRovers] asks nothing of [ready]: from every state in
    which both timers exist, ready or not, it returns with [ready] true. *)
Theorem changeRovers_makes_ready w r :
  allocated (self w) = true ->
  exists w', changeRovers r w = Returns tt w' /\ ready (self w') = true.
Proof.
  intros A. destruct (allocated_timers _ A) as (tw & tf & Hw & Hf).
  rewrite (changeRovers_allocated r w tw tf Hw Hf).
  eexists. split; reflexivity.
Qed.

Lemma changeRovers_makes_ready_witness :
  exists w0,
    rover_constructed {| ns := "" |} "achilles" garbage = Returns tt w0 /\
    ready (set_ready false (self w0)) = false /\
    exists w',
      changeRovers "ajax" {| self := set_ready false (self w0); ros := ros w0 |}
        = Returns tt w' /\
      ready (self w') = true.
Proof.
  eexists. split; [vm_compute; reflexivity|]. split; [reflexivity|].
  apply changeRovers_makes_ready. vm_compute. reflexivity.
Defined.

(** C8: on a ready object whose wrist angle is [+0.0] (change rate 0.1,
    limits 0.0 and 1.0), [moveWrist(-1.0)] stores the vector [1.0] and leaves
    the wrist timer running, and the wrist angles after the next five ticks
    are the [float] values 0.1, 0.2, 0.3, 0.4 and 0.5. *)
Theorem five_wrist_ticks w :
  reachable w -> ready (self w) = true ->
  wristAngle (self w) = S754_zero false ->
  wristAngleChangeRate (self w) = F32.literal 1 1 /\
  wristAngleMin (self w) = F32.literal 0 1 /\
  wristAngleMax (self w) = F32.literal 10 1 /\
  exists w1,
    moveWrist (F32.of_double (SFopp (F64.literal 10 1))) w = Returns tt w1 /\
    wristJoystickVector (self w1) = F32.literal 10 1 /\
    running (joystickGripperWristControlTimer (self w1)) = true /\
    map (fun s => wristAngle (self s))
        (trajectory [WristTimeout; WristTimeout; WristTimeout; WristTimeout;
                     WristTimeout] w1)
    = [F32.literal 1 1; F32.literal 2 1; F32.literal 3 1; F32.literal 4 1;
       F32.literal 5 1].
Proof.
  intros H R Z. destruct (reachable_ready w H R) as (C & tw & tf & Hw & _).
  destruct C as [E1 E2 E3 _ _ _ Er Et].
  destruct w as [o l].
  destruct o as [rd nh0 rn pw pf tiw tif wa wr wmax wmin wv fa fr fmax fmin
                 fv cr tol].
  simpl in *. subst.
  split; [vm_compute; reflexivity|].
  split; [vm_compute; reflexivity|].
  split; [vm_compute; reflexivity|].
  eexists. split; [vm_compute; reflexivity|].
  split; [vm_compute; reflexivity|].
  split; [reflexivity|].
  destruct pw; vm_compute; reflexivity.
Qed.

Lemma five_wrist_ticks_witness :
  exists w,
    rover_constructed {| ns := "" |} "achilles" garbage = Returns tt w /\
    wristAngleChangeRate (self w) = F32.literal 1 1 /\
    wristAngleMin (self w) = F32.literal 0 1 /\
    wristAngleMax (self w) = F32.literal 10 1 /\
    exists w1,
      moveWrist (F32.of_double (SFopp (F64.literal 10 1))) w = Returns tt w1 /\
      wristJoystickVector (self w1) = F32.literal 10 1 /\
      running (joystickGripperWristControlTimer (self w1)) = true /\
      map (fun s => wristAngle (self s))
          (trajectory [WristTimeout; WristTimeout; WristTimeout; WristTimeout;
                       WristTimeout] w1)
      = [F32.literal 1 1; F32.literal 2 1; F32.literal 3 1; F32.literal 4 1;
         F32.literal 5 1].
Proof.
  eexists. split; [vm_compute; reflexivity|].
  apply five_wrist_ticks; [|reflexivity|reflexivity].
  apply (reach_rover {| ns := "" |} "achilles" garbage).
  vm_compute. reflexivity.
Defined.

(** C9: on a ready object, [moveWrist] and [moveFingers] return nothing,
    send nothing to ROS, leave both angles as they are, and change no member
    other than the joint's joystick vector and the joint's timer. *)
Theorem moves_only_steer w vec :
  reachable w -> ready (self w) = true ->
  (exists w',
     moveWrist vec w = Returns tt w' /\
     ros w' = ros w /\
     wristAngle (self w') = wristAngle (self w) /\
     fingerAngle (self w') = fingerAngle (self w) /\
     self w' =
       set_joystickGripperWristControlTimer
         (joystickGripperWristControlTimer (self w'))
         (set_wristJoystickVector (wristJoystickVector (self w')) (self w))) /\
  (exists w',
     moveFingers vec w = Returns tt w' /\
     ros w' = ros w /\
     wristAngle (self w') = wristAngle (self w) /\
     fingerAngle (self w') = fingerAngle (self w) /\
     self w' =
       set_joystickGripperFingerControlTimer
         (joystickGripperFingerControlTimer (self w'))
         (set_fingerJoystickVector (fingerJoystickVector (self w')) (self w))).
Proof.
  intros H R. destruct (reachable_ready w H R) as (_ & tw & tf & Hw & Hf).
  rewrite (moveWrist_ready _ _ R), (moveFingers_ready _ _ R), Hw, Hf.
  split; eexists; (split; [reflexivity|]); simpl; repeat split.
Qed.

Lemma moves_only_steer_witness :
  exists w,
    rover_constructed {| ns := "" |} "achilles" garbage = Returns tt w /\
    (exists w',
       moveWrist (F32.of_double (F64.literal 75 2)) w = Returns tt w' /\
       ros w' = ros w /\
       wristAngle (self w') = wristAngle (self w) /\
       fingerAngle (self w') = fingerAngle (self w) /\
       self w' =
         set_joystickGripperWristControlTimer
           (joystickGripperWristControlTimer (self w'))
           (set_wristJoystickVector (wristJoystickVector (self w')) (self w))) /\
    (exists w',
       moveFingers (F32.of_double (F64.literal 75 2)) w = Returns tt w' /\
       ros w' = ros w /\
       wristAngle (self w') = wristAngle (self w) /\
       fingerAngle (self w') = fingerAngle (self w) /\
       self w' =
         set_joystickGripperFingerControlTimer
           (joystickGripperFingerControlTimer (self w'))
           (set_fingerJoystickVector (fingerJoystickVector (self w')) (self w))).
Proof.
  eexists. split; [vm_compute; reflexivity|].
  apply moves_only_steer; [|reflexivity].
  apply (reach_rover {| ns := "" |} "achilles" garbage).
  vm_compute. reflexivity.
Defined.

(** C10: in every state an object can be in, [moveWrist] and the wrist slot
    leave the finger angle, vector, timer and publisher as they are,
    [moveFingers] and the finger slot leave the wrist's as they are, and none
    of the four changes a limit, a change rate, the dead zone, the reapply
    period or [ready]. *)
Theorem joints_are_independent w vec :
  reachable w ->
  (exists w', post (moveWrist vec w) = Some w' /\
              finger_part (self w') = finger_part (self w) /\
              shared_part (self w') = shared_part (self w)) /\
  (exists w', joystickGripperWristControlTimerEventHandler w = Returns tt w' /\
              finger_part (self w') = finger_part (self w) /\
              shared_part (self w') = shared_part (self w)) /\
  (exists w', post (moveFingers vec w) = Some w' /\
              wrist_part (self w') = wrist_part (self w) /\
              shared_part (self w') = shared_part (self w)) /\
  (exists w', joystickGripperFingerControlTimerEventHandler w = Returns tt w' /\
              wrist_part (self w') = wrist_part (self w) /\
              shared_part (self w') = shared_part (self w)).
Proof.
  intros H.
  rewrite wrist_slot_returns, finger_slot_returns.
  destruct (ready (self w)) eqn:R.
  - destruct (reachable_ready w H R) as (_ & tw & tf & Hw & Hf).
    rewrite (moveWrist_ready _ _ R), (moveFingers_ready _ _ R), Hw, Hf.
    repeat split; eexists; (split; [reflexivity|]); split; reflexivity.
  - rewrite (moveWrist_not_ready _ _ R), (moveFingers_not_ready _ _ R).
    repeat split; eexists; (split; [reflexivity|]); split; reflexivity.
Qed.

Lemma joints_are_independent_witness :
  exists w0 w,
    rover_constructed {| ns := "" |} "achilles" garbage = Returns tt w0 /\
    run [MoveFingers (F32.of_double (F64.literal 5 1)); FingerTimeout] w0
      = Returns tt w /\
    (exists w', post (moveWrist (F32.of_double (F64.literal 75 2)) w) = Some w' /\
                finger_part (self w') = finger_part (self w) /\
                shared_part (self w') = shared_part (self w)) /\
    (exists w', joystickGripperWristControlTimerEventHandler w = Returns tt w' /\
                finger_part (self w') = finger_part (self w) /\
                shared_part (self w') = shared_part (self w)) /\
    (exists w', post (moveFingers (F32.of_double (F64.literal 75 2)) w) = Some w' /\
                wrist_part (self w') = wrist_part (self w) /\
                shared_part (self w') = shared_part (self w)) /\
    (exists w', joystickGripperFingerControlTimerEventHandler w = Returns tt w' /\
                wrist_part (self w') = wrist_part (self w) /\
                shared_part (self w') = shared_part (self w)).
Proof.
  do 2 eexists.
  split; [vm_compute; reflexivity|].
  split; [vm_compute; reflexivity|].
  apply joints_are_independent.
  eapply (reach_call FingerTimeout).
  - eapply (reach_call (MoveFingers (F32.of_double (F64.literal 5 1)))).
    + apply (reach_rover {| ns := "" |} "achilles" garbage).
      vm_compute. reflexivity.
    + vm_compute. reflexivity.
  - vm_compute. reflexivity.
Defined.

(** * Further properties *)

(** ** The record of ROS events *)

Lemma live_from_app log1 : forall open log2,
  live_from open (log1 ++ log2)%list = live_from (live_from open log1) log2.
Proof.
  induction log1 as [|e rest IH]; intros open log2; [reflexivity|].
  destruct e; simpl; apply IH.
Qed.

Lemma live_app log1 log2 : live (log1 ++ log2)%list = live_from (live log1) log2.
Proof. apply live_from_app. Qed.

Lemma live_from_republished a b a' b' :
  live_from [a; b] [Shutdown a; Shutdown b; Advertise a' 10; Advertise b' 10]
  = [a'; b'].
Proof.
  simpl. destruct (string_dec a a) as [_|N]; [|now elim N].
  destruct (string_dec a b) as [E|N]; simpl.
  - reflexivity.
  - destruct (string_dec b b) as [_|N']; [reflexivity|now elim N'].
Qed.

(** ** What every call keeps *)

Lemma follows_steered t vector tolerance msec :
  follows (Some (steered vector tolerance msec t)) vector tolerance msec.
Proof.
  unfold steered. exists (if SFltb (SFabs vector) tolerance
                          then QTimer_stop t else QTimer_start msec t).
  split; [reflexivity|].
  destruct (SFltb (SFabs vector) tolerance); simpl; split; congruence.
Qed.

Lemma dispatch_orderly c w :
  orderly w -> exists w', dispatch c w = Returns tt w' /\ orderly w'.
Proof.
  intros [R C Tw Tf Pw Pf L].
  pose proof Tw as (tw & Hw & Aw & Iw). pose proof Tf as (tf & Hf & Af & If).
  destruct c as [vec|vec|r| |]; simpl dispatch.
  - rewrite (moveWrist_ready _ _ R), Hw. eexists; split; [reflexivity|].
    split; simpl; try assumption.
    + eapply configured_same; [..|exact C]; reflexivity.
    + apply follows_steered.
  - rewrite (moveFingers_ready _ _ R), Hf. eexists; split; [reflexivity|].
    split; simpl; try assumption.
    + eapply configured_same; [..|exact C]; reflexivity.
    + apply follows_steered.
  - rewrite (changeRovers_allocated r w tw tf Hw Hf).
    eexists; split; [reflexivity|].
    destruct C as [E1 E2 E3 E4 E5 E6 Er Et].
    split; simpl; try reflexivity.
    + split; assumption.
    + exists (QTimer_stop tw). rewrite Et. repeat split. discriminate.
    + exists (QTimer_stop tf). rewrite Et. repeat split. discriminate.
    + rewrite Pw, Pf. simpl closed. rewrite live_app, L.
      apply live_from_republished.
  - unfold bind, this. rewrite Hw. simpl on_timeout.
    destruct (isActive tw).
    + rewrite wrist_slot_returns. eexists; split; [reflexivity|].
      split; simpl; try assumption.
      * eapply configured_same; [..|exact C]; reflexivity.
      * rewrite Pw. simpl sent. now rewrite live_app, L.
    + eexists; split; [reflexivity|]. now split.
  - unfold bind, this. rewrite Hf. simpl on_timeout.
    destruct (isActive tf).
    + rewrite finger_slot_returns. eexists; split; [reflexivity|].
      split; simpl; try assumption.
      * eapply configured_same; [..|exact C]; reflexivity.
      * rewrite Pf. simpl sent. now rewrite live_app, L.
    + eexists; split; [reflexivity|]. now split.
Qed.

Lemma rover_constructed_orderly nh0 r indet w :
  rover_constructed nh0 r indet = Returns tt w -> orderly w.
Proof.
  rewrite rover_constructed_returns. intros [= <-].
  split; simpl; try reflexivity.
  - split; reflexivity.
  - exists QTimer_new. repeat split. discriminate.
  - exists QTimer_new. repeat split. discriminate.
Qed.

Lemma run_orderly calls : forall w,
  orderly w -> exists w', run calls w = Returns tt w' /\ orderly w'.
Proof.
  induction calls as [|c rest IH]; intros w O.
  - exists w. split; [reflexivity|exact O].
  - destruct (dispatch_orderly c w O) as (w1 & E1 & O1).
    destruct (IH w1 O1) as (w2 & E2 & O2).
    exists w2. split; [|exact O2]. simpl. unfold bind. now rewrite E1.
Qed.

(** A call on an object that is not ready, and has no wrist timer, leaves it
    not ready. *)
Lemma dispatch_bare c w w' :
  ready (self w) = false -> joystickGripperWristControlTimer (self w) = None ->
  post (dispatch c w) = Some w' -> ready (self w') = false.
Proof.
  intros R N. destruct c as [vec|vec|r| |]; simpl dispatch.
  - rewrite (moveWrist_not_ready _ _ R). now intros [= <-].
  - rewrite (moveFingers_not_ready _ _ R). now intros [= <-].
  - now rewrite (changeRovers_unallocated _ _ N).
  - unfold bind, this. rewrite N. now intros [= <-].
  - unfold bind, this.
    destruct (joystickGripperFingerControlTimer (self w)) as [tf|];
      simpl on_timeout; [destruct (isActive tf)|].
    + rewrite finger_slot_returns. now intros [= <-].
    + now intros [= <-].
    + now intros [= <-].
Qed.

Lemma reachable_orderly w : reachable w -> ready (self w) = true -> orderly w.
Proof.
  induction 1 as [indet w H|nh0 r indet w H|c w w' Hw IH H]; intros R.
  - rewrite default_constructed_returns in H. injection H as <-. discriminate.
  - destruct (rover_constructed nh0 r indet) as [[] w1| |] eqn:E;
      try (rewrite rover_constructed_returns in E; discriminate).
    injection H as <-. eapply rover_constructed_orderly; eassumption.
  - destruct (ready (self w)) eqn:Rw.
    + destruct (dispatch_orderly c w (IH eq_refl)) as (w1 & E1 & O1).
      rewrite E1 in H. now injection H as <-.
    + pose proof (reachable_sound w Hw) as S. unfold sound in S.
      rewrite Rw in S.
      rewrite (dispatch_bare c w w' Rw S H) in R. discriminate.
Qed.

(** ** Runs and reachable states *)

Lemma run_cons c rest w :
  run (c :: rest) w =
  match dispatch c w with
  | Returns _ w' => run rest w'
  | Throws e w' => Throws e w'
  | Undefined => Undefined
  end.
Proof. reflexivity. Qed.

Lemma wrist_timeout_fires w :
  running (joystickGripperWristControlTimer (self w)) = true ->
  dispatch WristTimeout w = joystickGripperWristControlTimerEventHandler w.
Proof.
  unfold dispatch, bind, this.
  destruct (joystickGripperWristControlTimer (self w)) as [t|]; simpl;
    [intros ->; reflexivity|discriminate].
Qed.

Lemma finger_timeout_fires w :
  running (joystickGripperFingerControlTimer (self w)) = true ->
  dispatch FingerTimeout w = joystickGripperFingerControlTimerEventHandler w.
Proof.
  unfold dispatch, bind, this.
  destruct (joystickGripperFingerControlTimer (self w)) as [t|]; simpl;
    [intros ->; reflexivity|discriminate].
Qed.

Lemma run_reachable calls : forall w w',
  reachable w -> post (run calls w) = Some w' -> reachable w'.
Proof.
  induction calls as [|c rest IH]; intros w w' H E.
  - injection E as <-. exact H.
  - rewrite run_cons in E.
    destruct (dispatch c w) as [[] w1|e w1|] eqn:D; try discriminate.
    + apply (IH w1 w'); [|exact E].
      apply (reach_call c w w1 H). now rewrite D.
    + injection E as <-. apply (reach_call c w w1 H). now rewrite D.
Qed.

Lemma achilles_after_reachable calls w :
  achilles_after calls = Some w -> reachable w.
Proof.
  unfold achilles_after. rewrite rover_constructed_returns.
  apply run_reachable.
  apply (reach_rover {| ns := "" |} "achilles" garbage).
  now rewrite rover_constructed_returns.
Qed.

(** ** The dead zone *)

(** C3: on a ready object, [moveWrist(vec)] stores [-vec] and
    [moveFingers(vec)] stores [vec], and each leaves its joint's timer
    stopped when the magnitude of the vector it stored is below the dead zone
    0.05, and otherwise started with the interval 100 ms; the timer's earlier
    run state plays no part. *)
Theorem dead_zone_steers_timer w vec :
  reachable w -> ready (self w) = true ->
  exists tw tf ww wf,
    joystickGripperWristControlTimer (self w) = Some tw /\
    joystickGripperFingerControlTimer (self w) = Some tf /\
    moveWrist vec w = Returns tt ww /\
    wristJoystickVector (self ww) = SFopp vec /\
    joystickGripperWristControlTimer (self ww) =
      Some (if SFltb (SFabs (wristJoystickVector (self ww)))
                     (F32.of_double (F64.literal 5 2))
            then {| isActive := false; interval := interval tw |}
            else {| isActive := true; interval := 100 |}) /\
    moveFingers vec w = Returns tt wf /\
    fingerJoystickVector (self wf) = vec /\
    joystickGripperFingerControlTimer (self wf) =
      Some (if SFltb (SFabs (fingerJoystickVector (self wf)))
                     (F32.of_double (F64.literal 5 2))
            then {| isActive := false; interval := interval tf |}
            else {| isActive := true; interval := 100 |}).
Proof.
  intros H R. destruct (reachable_ready w H R) as (C & tw & tf & Hw & Hf).
  destruct C as [_ _ _ _ _ _ Er Et].
  exists tw, tf. rewrite (moveWrist_ready _ _ R), (moveFingers_ready _ _ R), Hw, Hf.
  do 2 eexists. repeat split; simpl; unfold steered; rewrite Er, Et; reflexivity.
Qed.

Lemma dead_zone_steers_timer_witness :
  (exists w,
     achilles_after [MoveWrist (F32.of_double (SFopp (F64.literal 10 1))); MoveFingers (F32.of_double (F64.literal 10 1))] = Some w /\
     running (joystickGripperWristControlTimer (self w)) = true /\
     running (joystickGripperFingerControlTimer (self w)) = true /\
     exists tw tf ww wf,
       joystickGripperWristControlTimer (self w) = Some tw /\
       joystickGripperFingerControlTimer (self w) = Some tf /\
       moveWrist (F32.of_double (F64.literal 2 2)) w = Returns tt ww /\
       wristJoystickVector (self ww) = SFopp (F32.of_double (F64.literal 2 2)) /\
       joystickGripperWristControlTimer (self ww) =
         Some (if SFltb (SFabs (wristJoystickVector (self ww)))
                        (F32.of_double (F64.literal 5 2))
               then {| isActive := false; interval := interval tw |}
               else {| isActive := true; interval := 100 |}) /\
       moveFingers (F32.of_double (F64.literal 2 2)) w = Returns tt wf /\
       fingerJoystickVector (self wf) = (F32.of_double (F64.literal 2 2)) /\
       joystickGripperFingerControlTimer (self wf) =
         Some (if SFltb (SFabs (fingerJoystickVector (self wf)))
                        (F32.of_double (F64.literal 5 2))
               then {| isActive := false; interval := interval tf |}
               else {| isActive := true; interval := 100 |})) /\
  (exists w,
     achilles_after [] = Some w /\
     stopped (joystickGripperWristControlTimer (self w)) = true /\
     stopped (joystickGripperFingerControlTimer (self w)) = true /\
     exists tw tf ww wf,
       joystickGripperWristControlTimer (self w) = Some tw /\
       joystickGripperFingerControlTimer (self w) = Some tf /\
       moveWrist (F32.of_double (F64.literal 75 2)) w = Returns tt ww /\
       wristJoystickVector (self ww) = SFopp (F32.of_double (F64.literal 75 2)) /\
       joystickGripperWristControlTimer (self ww) =
         Some (if SFltb (SFabs (wristJoystickVector (self ww)))
                        (F32.of_double (F64.literal 5 2))
               then {| isActive := false; interval := interval tw |}
               else {| isActive := true; interval := 100 |}) /\
       moveFingers (F32.of_double (F64.literal 75 2)) w = Returns tt wf /\
       fingerJoystickVector (self wf) = (F32.of_double (F64.literal 75 2)) /\
       joystickGripperFingerControlTimer (self wf) =
         Some (if SFltb (SFabs (fingerJoystickVector (self wf)))
                        (F32.of_double (F64.literal 5 2))
               then {| isActive := false; interval := interval tf |}
               else {| isActive := true; interval := 100 |})).
Proof.
  split.
  - eexists. split; [vm_compute; reflexivity|].
    split; [reflexivity|]. split; [reflexivity|].
    apply dead_zone_steers_timer; [|reflexivity].
    apply (achilles_after_reachable [MoveWrist (F32.of_double (SFopp (F64.literal 10 1))); MoveFingers (F32.of_double (F64.literal 10 1))]).
    vm_compute. reflexivity.
  - eexists. split; [vm_compute; reflexivity|].
    split; [reflexivity|]. split; [reflexivity|].
    apply dead_zone_steers_timer; [|reflexivity].
    apply (achilles_after_reachable []). vm_compute. reflexivity.
Defined.

(** The two scenarios of the dead zone, evaluated: 0.02 stops running timers,
    0.75 starts stopped ones at 100 ms. *)
Lemma centred_sample_stops_running_timers :
  exists w ww wf,
    achilles_after [MoveWrist (F32.of_double (SFopp (F64.literal 10 1))); MoveFingers (F32.of_double (F64.literal 10 1))] = Some w /\
    running (joystickGripperWristControlTimer (self w)) = true /\
    running (joystickGripperFingerControlTimer (self w)) = true /\
    moveWrist (F32.of_double (F64.literal 2 2)) w = Returns tt ww /\
    joystickGripperWristControlTimer (self ww)
      = Some {| isActive := false; interval := 100 |} /\
    moveFingers (F32.of_double (F64.literal 2 2)) w = Returns tt wf /\
    joystickGripperFingerControlTimer (self wf)
      = Some {| isActive := false; interval := 100 |}.
Proof.
  do 3 eexists.
  split; [vm_compute; reflexivity|].
  split; [reflexivity|]. split; [reflexivity|].
  split; [vm_compute; reflexivity|]. split; [reflexivity|].
  split; [vm_compute; reflexivity|]. reflexivity.
Qed.

Lemma deflected_sample_starts_stopped_timers :
  exists w ww wf,
    achilles_after [] = Some w /\
    joystickGripperWristControlTimer (self w)
      = Some {| isActive := false; interval := 0 |} /\
    joystickGripperFingerControlTimer (self w)
      = Some {| isActive := false; interval := 0 |} /\
    moveWrist (F32.of_double (F64.literal 75 2)) w = Returns tt ww /\
    joystickGripperWristControlTimer (self ww)
      = Some {| isActive := true; interval := 100 |} /\
    moveFingers (F32.of_double (F64.literal 75 2)) w = Returns tt wf /\
    joystickGripperFingerControlTimer (self wf)
      = Some {| isActive := true; interval := 100 |}.
Proof.
  do 3 eexists.
  split; [vm_compute; reflexivity|].
  split; [reflexivity|]. split; [reflexivity|].
  split; [vm_compute; reflexivity|]. split; [reflexivity|].
  split; [vm_compute; reflexivity|]. reflexivity.
Qed.

(** ** Calls that keep the rover, calls that spare a joint *)

Lemma dispatch_keeps_rover c w :
  orderly w -> keeps_rover c = true ->
  exists w' extra,
    dispatch c w = Returns tt w' /\ orderly w' /\
    roverName (self w') = roverName (self w) /\
    ros w' = (ros w ++ extra)%list /\
    Forall (command_for (roverName (self w))) extra.
Proof.
  intros O K. pose proof O as [R C Tw Tf Pw Pf L].
  destruct (dispatch_orderly c w O) as (w' & E & O').
  exists w'. rewrite E.
  pose proof Tw as (tw & Hw & _). pose proof Tf as (tf & Hf & _).
  assert (Quiet : self w' = self w' -> ros w' = ros w ->
                  roverName (self w') = roverName (self w) ->
                  exists extra, Returns tt w' = Returns tt w' /\ orderly w' /\
                    roverName (self w') = roverName (self w) /\
                    ros w' = (ros w ++ extra)%list /\
                    Forall (command_for (roverName (self w))) extra).
  { intros _ Hr Hn. exists []. rewrite app_nil_r. auto. }
  destruct c as [vec|vec|r| |]; simpl dispatch in E; try discriminate.
  - rewrite (moveWrist_ready _ _ R), Hw in E. injection E as <-.
    apply Quiet; reflexivity.
  - rewrite (moveFingers_ready _ _ R), Hf in E. injection E as <-.
    apply Quiet; reflexivity.
  - unfold bind, this in E. rewrite Hw in E. simpl on_timeout in E.
    destruct (isActive tw).
    + rewrite wrist_slot_returns in E. injection E as <-.
      eexists. split; [reflexivity|]. split; [exact O'|].
      split; [reflexivity|]. simpl ros. rewrite Pw. simpl sent.
      split; [reflexivity|].
      constructor; [|constructor]. eexists. left. reflexivity.
    + injection E as <-. apply Quiet; reflexivity.
  - unfold bind, this in E. rewrite Hf in E. simpl on_timeout in E.
    destruct (isActive tf).
    + rewrite finger_slot_returns in E. injection E as <-.
      eexists. split; [reflexivity|]. split; [exact O'|].
      split; [reflexivity|]. simpl ros. rewrite Pf. simpl sent.
      split; [reflexivity|].
      constructor; [|constructor]. eexists. right. reflexivity.
    + injection E as <-. apply Quiet; reflexivity.
Qed.

Lemma run_keeps_rover calls : forall w,
  orderly w -> forallb keeps_rover calls = true ->
  exists w' extra,
    run calls w = Returns tt w' /\ orderly w' /\
    roverName (self w') = roverName (self w) /\
    ros w' = (ros w ++ extra)%list /\
    Forall (command_for (roverName (self w))) extra.
Proof.
  induction calls as [|c rest IH]; intros w O K.
  - exists w, []. rewrite app_nil_r. auto.
  - simpl in K. apply andb_prop in K as [Kc Krest].
    destruct (dispatch_keeps_rover c w O Kc) as (w1 & x1 & E1 & O1 & N1 & L1 & F1).
    destruct (IH w1 O1 Krest) as (w2 & x2 & E2 & O2 & N2 & L2 & F2).
    exists w2, (x1 ++ x2)%list. simpl. unfold bind. rewrite E1.
    split; [exact E2|]. split; [exact O2|]. split; [congruence|].
    split; [now rewrite L2, L1, app_assoc|].
    apply Forall_app. split; [exact F1|]. now rewrite N1 in F2.
Qed.

(** Calls that spare a joint whose timer is stopped leave the joint as it
    is and send nothing on its topic. *)
Lemma dispatch_spares_wrist c w :
  orderly w -> running (joystickGripperWristControlTimer (self w)) = false ->
  spares_wrist c = true ->
  exists w' extra,
    dispatch c w = Returns tt w' /\ orderly w' /\
    wrist_part (self w') = wrist_part (self w) /\
    roverName (self w') = roverName (self w) /\
    ros w' = (ros w ++ extra)%list /\
    Forall (fun e => exists data,
                e = Publish (finger_topic (roverName (self w))) data) extra.
Proof.
  intros O Q K. pose proof O as [R C Tw Tf Pw Pf L].
  destruct (dispatch_orderly c w O) as (w' & E & O').
  exists w'. rewrite E.
  pose proof Tw as (tw & Hw & _). pose proof Tf as (tf & Hf & _).
  rewrite Hw in Q. simpl in Q.
  destruct c as [vec|vec|r| |]; simpl dispatch in E; try discriminate.
  - rewrite (moveFingers_ready _ _ R), Hf in E. injection E as <-.
    exists []. rewrite app_nil_r. repeat (split; [first [reflexivity|assumption]|]).
    constructor.
  - unfold bind, this in E. rewrite Hw in E. simpl on_timeout in E.
    rewrite Q in E. injection E as <-.
    exists []. rewrite app_nil_r. repeat (split; [first [reflexivity|assumption]|]).
    constructor.
  - unfold bind, this in E. rewrite Hf in E. simpl on_timeout in E.
    destruct (isActive tf).
    + rewrite finger_slot_returns in E. injection E as <-.
      eexists. split; [reflexivity|]. split; [exact O'|].
      split; [reflexivity|]. split; [reflexivity|].
      simpl ros. rewrite Pf. simpl sent. split; [reflexivity|].
      constructor; [|constructor]. eexists. reflexivity.
    + injection E as <-.
      exists []. rewrite app_nil_r.
      repeat (split; [first [reflexivity|assumption]|]). constructor.
Qed.

Lemma run_spares_wrist calls : forall w,
  orderly w -> running (joystickGripperWristControlTimer (self w)) = false ->
  forallb spares_wrist calls = true ->
  exists w' extra,
    run calls w = Returns tt w' /\
    wrist_part (self w') = wrist_part (self w) /\
    ros w' = (ros w ++ extra)%list /\
    Forall (fun e => exists data,
                e = Publish (finger_topic (roverName (self w))) data) extra.
Proof.
  induction calls as [|c rest IH]; intros w O Q K.
  - exists w, []. rewrite app_nil_r. auto.
  - simpl in K. apply andb_prop in K as [Kc Krest].
    destruct (dispatch_spares_wrist c w O Q Kc)
      as (w1 & x1 & E1 & O1 & P1 & N1 & L1 & F1).
    assert (Q1 : running (joystickGripperWristControlTimer (self w1)) = false).
    { unfold wrist_part in P1. injection P1 as _ _ -> _. exact Q. }
    destruct (IH w1 O1 Q1 Krest) as (w2 & x2 & E2 & P2 & L2 & F2).
    exists w2, (x1 ++ x2)%list. simpl. unfold bind. rewrite E1.
    split; [exact E2|]. split; [congruence|].
    split; [now rewrite L2, L1, app_assoc|].
    apply Forall_app. split; [exact F1|]. now rewrite N1 in F2.
Qed.

Lemma dispatch_spares_fingers c w :
  orderly w -> running (joystickGripperFingerControlTimer (self w)) = false ->
  spares_fingers c = true ->
  exists w' extra,
    dispatch c w = Returns tt w' /\ orderly w' /\
    finger_part (self w') = finger_part (self w) /\
    roverName (self w') = roverName (self w) /\
    ros w' = (ros w ++ extra)%list /\
    Forall (fun e => exists data,
                e = Publish (wrist_topic (roverName (self w))) data) extra.
Proof.
  intros O Q K. pose proof O as [R C Tw Tf Pw Pf L].
  destruct (dispatch_orderly c w O) as (w' & E & O').
  exists w'. rewrite E.
  pose proof Tw as (tw & Hw & _). pose proof Tf as (tf & Hf & _).
  rewrite Hf in Q. simpl in Q.
  destruct c as [vec|vec|r| |]; simpl dispatch in E; try discriminate.
  - rewrite (moveWrist_ready _ _ R), Hw in E. injection E as <-.
    exists []. rewrite app_nil_r. repeat (split; [first [reflexivity|assumption]|]).
    constructor.
  - unfold bind, this in E. rewrite Hw in E. simpl on_timeout in E.
    destruct (isActive tw).
    + rewrite wrist_slot_returns in E. injection E as <-.
      eexists. split; [reflexivity|]. split; [exact O'|].
      split; [reflexivity|]. split; [reflexivity|].
      simpl ros. rewrite Pw. simpl sent. split; [reflexivity|].
      constructor; [|constructor]. eexists. reflexivity.
    + injection E as <-.
      exists []. rewrite app_nil_r.
      repeat (split; [first [reflexivity|assumption]|]). constructor.
  - unfold bind, this in E. rewrite Hf in E. simpl on_timeout in E.
    rewrite Q in E. injection E as <-.
    exists []. rewrite app_nil_r. repeat (split; [first [reflexivity|assumption]|]).
    constructor.
Qed.

Lemma run_spares_fingers calls : forall w,
  orderly w -> running (joystickGripperFingerControlTimer (self w)) = false ->
  forallb spares_fingers calls = true ->
  exists w' extra,
    run calls w = Returns tt w' /\
    finger_part (self w') = finger_part (self w) /\
    ros w' = (ros w ++ extra)%list /\
    Forall (fun e => exists data,
                e = Publish (wrist_topic (roverName (self w))) data) extra.
Proof.
  induction calls as [|c rest IH]; intros w O Q K.
  - exists w, []. rewrite app_nil_r. auto.
  - simpl in K. apply andb_prop in K as [Kc Krest].
    destruct (dispatch_spares_fingers c w O Q Kc)
      as (w1 & x1 & E1 & O1 & P1 & N1 & L1 & F1).
    assert (Q1 : running (joystickGripperFingerControlTimer (self w1)) = false).
    { unfold finger_part in P1. injection P1 as _ _ -> _. exact Q. }
    destruct (IH w1 O1 Q1 Krest) as (w2 & x2 & E2 & P2 & L2 & F2).
    exists w2, (x1 ++ x2)%list. simpl. unfold bind. rewrite E1.
    split; [exact E2|]. split; [congruence|].
    split; [now rewrite L2, L1, app_assoc|].
    apply Forall_app. split; [exact F1|]. now rewrite N1 in F2.
Qed.

Lemma SFabs_SFopp x : SFabs (SFopp x) = SFabs x.
Proof. now destruct x. Qed.

(** ** Not-a-number and the snap *)

Lemma snapped_zero_or_large a :
  snapped a = S754_zero false \/ fabs_lt_0_001 (snapped a) = false.
Proof.
  unfold snapped. destruct (fabs_lt_0_001 a) eqn:E; [left; reflexivity|now right].
Qed.

Lemma SFltb_nan_l x : SFltb S754_nan x = false.
Proof. reflexivity. Qed.

Lemma SFltb_nan_r x : SFltb x S754_nan = false.
Proof. now destruct x. Qed.

Lemma add_nan_l x : F32.add S754_nan x = S754_nan.
Proof. reflexivity. Qed.

Lemma add_nan_r x : F32.add x S754_nan = S754_nan.
Proof. now destruct x. Qed.

Lemma mul_nan_l x : F32.mul S754_nan x = S754_nan.
Proof. reflexivity. Qed.

Lemma tick_of_nan lo hi : snapped (clamped lo hi S754_nan) = S754_nan.
Proof.
  unfold clamped. rewrite SFltb_nan_r, SFltb_nan_l. reflexivity.
Qed.

(** ** Construction *)

(** X1: the rover constructor assigns every member: its result does not
    depend on what the storage held; the object is ready, both angles and
    both joystick vectors are [+0.0], the limits, rates, dead zone and
    reapply period are the constructor's, both timers are new and stopped,
    the publishers are bound to the two topics of the rover, and exactly
    these two topics have been advertised. *)
Theorem rover_constructor_initialises_everything nh0 r indet indet' :
  rover_constructed nh0 r indet = rover_constructed nh0 r indet' /\
  exists w,
    rover_constructed nh0 r indet = Returns tt w /\
    steady (self w) /\
    wristAngle (self w) = S754_zero false /\
    fingerAngle (self w) = S754_zero false /\
    wristJoystickVector (self w) = S754_zero false /\
    fingerJoystickVector (self w) = S754_zero false /\
    joystickGripperWristControlTimer (self w)
      = Some {| isActive := false; interval := 0 |} /\
    joystickGripperFingerControlTimer (self w)
      = Some {| isActive := false; interval := 0 |} /\
    gripperWristAnglePublisher (self w) = Some (wrist_topic r) /\
    gripperFingerAnglePublisher (self w) = Some (finger_topic r) /\
    roverName (self w) = r /\ nh (self w) = nh0 /\
    stopped (joystickGripperWristControlTimer (self w)) = true /\
    stopped (joystickGripperFingerControlTimer (self w)) = true /\
    ros w = [Advertise (wrist_topic r) 10; Advertise (finger_topic r) 10].
Proof.
  rewrite !rover_constructed_returns. split; [reflexivity|].
  eexists. split; [reflexivity|].
  split; [|repeat split].
  eapply (rover_constructed_steady nh0 r indet). apply rover_constructed_returns.
Qed.

(** X2: after the rover constructor no sequence of calls, whatever the
    joystick values, throws or is undefined, and [ready] is true and both
    timers exist after it. *)
Theorem never_throws_after_rover_construction nh0 r indet calls :
  exists w0 w,
    rover_constructed nh0 r indet = Returns tt w0 /\
    run calls w0 = Returns tt w /\
    ready (self w) = true /\ allocated (self w) = true.
Proof.
  destruct (rover_constructed nh0 r indet) as [[] w0| |] eqn:E0;
    try (rewrite rover_constructed_returns in E0; discriminate).
  pose proof (rover_constructed_orderly _ _ _ _ E0) as O0.
  destruct (run_orderly calls w0 O0) as (w & E & [R _ (tw & Hw & _) (tf & Hf & _) _ _ _]).
  exists w0, w. repeat split; try assumption.
  unfold allocated. now rewrite Hw, Hf.
Qed.

(** X13: a default-constructed object is inert whatever its storage held:
    every call but [changeRovers] leaves it exactly as it was (the moves
    throw, no tick fires), and [changeRovers] is undefined for every rover
    name. *)
Theorem default_constructed_is_inert indet c :
  keeps_rover c = true ->
  exists w,
    default_constructed indet = Returns tt w /\
    ready (self w) = false /\
    post (dispatch c w) = Some w /\
    (forall vec, dispatch (MoveWrist vec) w
                 = Throws JoystickGripperInterfaceNotReadyException w) /\
    (forall vec, dispatch (MoveFingers vec) w
                 = Throws JoystickGripperInterfaceNotReadyException w) /\
    (forall r, dispatch (ChangeRovers r) w = Undefined).
Proof.
  intros K. rewrite default_constructed_returns. eexists.
  split; [reflexivity|]. split; [reflexivity|].
  split; [|repeat split].
  destruct c; try discriminate; reflexivity.
Qed.

Lemma default_constructed_is_inert_witness :
  exists w,
    default_constructed garbage = Returns tt w /\
    ready (self w) = false /\
    post (dispatch FingerTimeout w) = Some w /\
    (forall vec, dispatch (MoveWrist vec) w
                 = Throws JoystickGripperInterfaceNotReadyException w) /\
    (forall vec, dispatch (MoveFingers vec) w
                 = Throws JoystickGripperInterfaceNotReadyException w) /\
    (forall r, dispatch (ChangeRovers r) w = Undefined).
Proof. apply (default_constructed_is_inert garbage FingerTimeout). reflexivity. Defined.

(** ** The two timers *)

(** X3: in every ready state that can be reached, each timer runs exactly
    when the magnitude of its joint's stored vector is not below 0.05, and a
    running timer has the interval 100 ms. *)
Theorem timers_follow_vectors w :
  reachable w -> ready (self w) = true ->
  running (joystickGripperWristControlTimer (self w)) =
    negb (SFltb (SFabs (wristJoystickVector (self w)))
                (F32.of_double (F64.literal 5 2))) /\
  running (joystickGripperFingerControlTimer (self w)) =
    negb (SFltb (SFabs (fingerJoystickVector (self w)))
                (F32.of_double (F64.literal 5 2))) /\
  (forall t, joystickGripperWristControlTimer (self w) = Some t ->
             isActive t = true -> interval t = 100) /\
  (forall t, joystickGripperFingerControlTimer (self w) = Some t ->
             isActive t = true -> interval t = 100).
Proof.
  intros H R. destruct (reachable_orderly w H R) as [_ C Tw Tf _ _ _].
  destruct C as [_ _ _ _ _ _ Er Et]. rewrite Er, Et in *.
  destruct Tw as (tw & Hw & Aw & Iw), Tf as (tf & Hf & Af & If).
  rewrite Hw, Hf. simpl. repeat split; try assumption.
  - now intros t [= <-].
  - now intros t [= <-].
Qed.

Lemma timers_follow_vectors_witness :
  exists w,
    achilles_after [MoveWrist (F32.of_double (F64.literal 75 2)); MoveFingers (F32.of_double (F64.literal 2 2))] = Some w /\
    running (joystickGripperWristControlTimer (self w)) =
      negb (SFltb (SFabs (wristJoystickVector (self w)))
                  (F32.of_double (F64.literal 5 2))) /\
    running (joystickGripperFingerControlTimer (self w)) =
      negb (SFltb (SFabs (fingerJoystickVector (self w)))
                  (F32.of_double (F64.literal 5 2))) /\
    (forall t, joystickGripperWristControlTimer (self w) = Some t ->
               isActive t = true -> interval t = 100) /\
    (forall t, joystickGripperFingerControlTimer (self w) = Some t ->
               isActive t = true -> interval t = 100).
Proof.
  eexists. split; [vm_compute; reflexivity|].
  apply timers_follow_vectors; [|reflexivity].
  apply (achilles_after_reachable [MoveWrist (F32.of_double (F64.literal 75 2)); MoveFingers (F32.of_double (F64.literal 2 2))]).
  vm_compute. reflexivity.
Defined.

(** X14: of two consecutive joystick samples only the last counts: the
    object and the ROS record after [moveWrist v1; moveWrist v2] are those
    after [moveWrist v2] alone, up to the interval of the wrist timer, whose
    run state is the same; likewise for the fingers. *)
Theorem last_sample_wins w v1 v2 :
  reachable w -> ready (self w) = true ->
  (exists w12 w2,
     run [MoveWrist v1; MoveWrist v2] w = Returns tt w12 /\
     moveWrist v2 w = Returns tt w2 /\
     running (joystickGripperWristControlTimer (self w12))
       = running (joystickGripperWristControlTimer (self w2)) /\
     set_joystickGripperWristControlTimer None (self w12)
       = set_joystickGripperWristControlTimer None (self w2) /\
     ros w12 = ros w2) /\
  (exists w12 w2,
     run [MoveFingers v1; MoveFingers v2] w = Returns tt w12 /\
     moveFingers v2 w = Returns tt w2 /\
     running (joystickGripperFingerControlTimer (self w12))
       = running (joystickGripperFingerControlTimer (self w2)) /\
     set_joystickGripperFingerControlTimer None (self w12)
       = set_joystickGripperFingerControlTimer None (self w2) /\
     ros w12 = ros w2).
Proof.
  intros H R. destruct (reachable_ready w H R) as (_ & tw & tf & Hw & Hf).
  split.
  - rewrite run_cons. simpl dispatch.
    rewrite (moveWrist_ready v1 _ R), (moveWrist_ready v2 w R), Hw.
    rewrite run_cons. simpl dispatch.
    rewrite moveWrist_ready by exact R. exec.
    do 2 eexists. split; [reflexivity|]. split; [reflexivity|]. exec.
    split; [|split; reflexivity].
    unfold steered. destruct (SFltb (SFabs (SFopp v2)) _); reflexivity.
  - rewrite run_cons. simpl dispatch.
    rewrite (moveFingers_ready v1 _ R), (moveFingers_ready v2 w R), Hf.
    rewrite run_cons. simpl dispatch.
    rewrite moveFingers_ready by exact R. exec.
    do 2 eexists. split; [reflexivity|]. split; [reflexivity|]. exec.
    split; [|split; reflexivity].
    unfold steered. destruct (SFltb (SFabs v2) _); reflexivity.
Qed.

Lemma last_sample_wins_witness :
  exists w,
    achilles_after [] = Some w /\
    (exists w12 w2,
       run [MoveWrist (F32.of_double (F64.literal 75 2)); MoveWrist (F32.of_double (F64.literal 2 2))] w = Returns tt w12 /\
       moveWrist (F32.of_double (F64.literal 2 2)) w = Returns tt w2 /\
       running (joystickGripperWristControlTimer (self w12))
         = running (joystickGripperWristControlTimer (self w2)) /\
       set_joystickGripperWristControlTimer None (self w12)
         = set_joystickGripperWristControlTimer None (self w2) /\
       ros w12 = ros w2) /\
    (exists w12 w2,
       run [MoveFingers (F32.of_double (F64.literal 75 2)); MoveFingers (F32.of_double (F64.literal 2 2))] w = Returns tt w12 /\
       moveFingers (F32.of_double (F64.literal 2 2)) w = Returns tt w2 /\
       running (joystickGripperFingerControlTimer (self w12))
         = running (joystickGripperFingerControlTimer (self w2)) /\
       set_joystickGripperFingerControlTimer None (self w12)
         = set_joystickGripperFingerControlTimer None (self w2) /\
       ros w12 = ros w2).
Proof.
  eexists. split; [vm_compute; reflexivity|].
  apply last_sample_wins; [|reflexivity].
  apply (achilles_after_reachable []). vm_compute. reflexivity.
Defined.

(** X6: once [moveWrist] has stored a vector inside the dead zone, no
    sequence of calls without [moveWrist] and [changeRovers] restarts the
    wrist timer, moves the wrist angle, or sends anything but finger
    commands. *)
Theorem centred_stick_freezes_wrist w vec calls :
  reachable w -> ready (self w) = true ->
  SFltb (SFabs vec) (F32.of_double (F64.literal 5 2)) = true ->
  forallb spares_wrist calls = true ->
  exists w1 w2 extra,
    moveWrist vec w = Returns tt w1 /\
    run calls w1 = Returns tt w2 /\
    running (joystickGripperWristControlTimer (self w2)) = false /\
    wristAngle (self w2) = wristAngle (self w) /\
    ros w2 = (ros w ++ extra)%list /\
    Forall (fun e => exists data,
                e = Publish (finger_topic (roverName (self w))) data) extra.
Proof.
  intros H R Z K. pose proof (reachable_orderly w H R) as O.
  destruct (dispatch_orderly (MoveWrist vec) w O) as (w1 & E1 & O1).
  simpl dispatch in E1. exists w1. rewrite E1.
  pose proof O as [_ C (tw & Hw & _) _ _ _ _].
  destruct C as [_ _ _ _ _ _ Er Et].
  rewrite (moveWrist_ready _ _ R), Hw in E1. injection E1 as <-.
  assert (Q : running (joystickGripperWristControlTimer
                         (self {| self := set_joystickGripperWristControlTimer
                     (Some (steered (SFopp vec) (stickCenterTolerance (self w))
                              (commandReapplyRate (self w)) tw))
                     (set_wristJoystickVector (SFopp vec) (self w));
           ros := ros w |})) = false).
  { simpl. unfold steered. now rewrite Et, SFabs_SFopp, Z. }
  destruct (run_spares_wrist calls _ O1 Q K) as (w2 & extra & E2 & P2 & L2 & F2).
  exists w2, extra. split; [reflexivity|]. split; [exact E2|].
  unfold wrist_part in P2. injection P2 as Pa Pv Pt Pp.
  split; [now rewrite Pt|]. split; [now rewrite Pa|].
  split; [exact L2|exact F2].
Qed.

Lemma centred_stick_freezes_wrist_witness :
  exists w,
    achilles_after [MoveWrist (F32.of_double (SFopp (F64.literal 10 1))); WristTimeout; MoveFingers (F32.of_double (F64.literal 10 1))] = Some w /\
    wristAngle (self w) = F32.literal 1 1 /\
    exists w1 w2 extra,
      moveWrist (F32.of_double (F64.literal 2 2)) w = Returns tt w1 /\
      run [WristTimeout; FingerTimeout; WristTimeout; MoveFingers (F32.of_double (F64.literal 5 1));
           FingerTimeout] w1 = Returns tt w2 /\
      running (joystickGripperWristControlTimer (self w2)) = false /\
      wristAngle (self w2) = wristAngle (self w) /\
      ros w2 = (ros w ++ extra)%list /\
      Forall (fun e => exists data,
                  e = Publish (finger_topic (roverName (self w))) data) extra.
Proof.
  eexists. split; [vm_compute; reflexivity|].
  split; [vm_compute; reflexivity|].
  apply centred_stick_freezes_wrist; [|reflexivity|reflexivity|reflexivity].
  apply (achilles_after_reachable
           [MoveWrist (F32.of_double (SFopp (F64.literal 10 1))); WristTimeout; MoveFingers (F32.of_double (F64.literal 10 1))]).
  vm_compute. reflexivity.
Defined.

(** X7: once [moveFingers] has stored a vector inside the dead zone, no
    sequence of calls without [moveFingers] and [changeRovers] restarts the
    finger timer, moves the finger angle, or sends anything but wrist
    commands. *)
Theorem centred_stick_freezes_fingers w vec calls :
  reachable w -> ready (self w) = true ->
  SFltb (SFabs vec) (F32.of_double (F64.literal 5 2)) = true ->
  forallb spares_fingers calls = true ->
  exists w1 w2 extra,
    moveFingers vec w = Returns tt w1 /\
    run calls w1 = Returns tt w2 /\
    running (joystickGripperFingerControlTimer (self w2)) = false /\
    fingerAngle (self w2) = fingerAngle (self w) /\
    ros w2 = (ros w ++ extra)%list /\
    Forall (fun e => exists data,
                e = Publish (wrist_topic (roverName (self w))) data) extra.
Proof.
  intros H R Z K. pose proof (reachable_orderly w H R) as O.
  destruct (dispatch_orderly (MoveFingers vec) w O) as (w1 & E1 & O1).
  simpl dispatch in E1. exists w1. rewrite E1.
  pose proof O as [_ C _ (tf & Hf & _) _ _ _].
  destruct C as [_ _ _ _ _ _ Er Et].
  rewrite (moveFingers_ready _ _ R), Hf in E1. injection E1 as <-.
  assert (Q : running (joystickGripperFingerControlTimer
                         (self {| self := set_joystickGripperFingerControlTimer
                     (Some (steered vec (stickCenterTolerance (self w))
                              (commandReapplyRate (self w)) tf))
                     (set_fingerJoystickVector vec (self w));
           ros := ros w |})) = false).
  { simpl. unfold steered. now rewrite Et, Z. }
  destruct (run_spares_fingers calls _ O1 Q K) as (w2 & extra & E2 & P2 & L2 & F2).
  exists w2, extra. split; [reflexivity|]. split; [exact E2|].
  unfold finger_part in P2. injection P2 as Pa Pv Pt Pp.
  split; [now rewrite Pt|]. split; [now rewrite Pa|].
  split; [exact L2|exact F2].
Qed.

Lemma centred_stick_freezes_fingers_witness :
  exists w,
    achilles_after [MoveFingers (F32.of_double (F64.literal 10 1)); FingerTimeout; MoveWrist (F32.of_double (SFopp (F64.literal 10 1)))] = Some w /\
    fingerAngle (self w) = F32.literal 1 1 /\
    exists w1 w2 extra,
      moveFingers (F32.of_double (F64.literal 2 2)) w = Returns tt w1 /\
      run [FingerTimeout; WristTimeout; FingerTimeout; MoveWrist (F32.of_double (F64.literal 5 1));
           WristTimeout] w1 = Returns tt w2 /\
      running (joystickGripperFingerControlTimer (self w2)) = false /\
      fingerAngle (self w2) = fingerAngle (self w) /\
      ros w2 = (ros w ++ extra)%list /\
      Forall (fun e => exists data,
                  e = Publish (wrist_topic (roverName (self w))) data) extra.
Proof.
  eexists. split; [vm_compute; reflexivity|].
  split; [vm_compute; reflexivity|].
  apply centred_stick_freezes_fingers; [|reflexivity|reflexivity|reflexivity].
  apply (achilles_after_reachable
           [MoveFingers (F32.of_double (F64.literal 10 1)); FingerTimeout; MoveWrist (F32.of_double (SFopp (F64.literal 10 1)))]).
  vm_compute. reflexivity.
Defined.

(** ** The publishers *)

(** X4: in every ready state that can be reached, the two publishers are
    bound to the wrist and finger topics of the stored rover name, and these
    two are exactly the topics left advertised: every earlier one has been
    shut down. *)
Theorem publishers_follow_rover w :
  reachable w -> ready (self w) = true ->
  gripperWristAnglePublisher (self w) = Some (wrist_topic (roverName (self w))) /\
  gripperFingerAnglePublisher (self w) = Some (finger_topic (roverName (self w))) /\
  live (ros w) = [wrist_topic (roverName (self w)); finger_topic (roverName (self w))].
Proof.
  intros H R. destruct (reachable_orderly w H R) as [_ _ _ _ Pw Pf L].
  auto.
Qed.

Lemma publishers_follow_rover_witness :
  exists w,
    achilles_after [ChangeRovers "ajax"; MoveWrist (F32.of_double (F64.literal 75 2)); WristTimeout;
                    ChangeRovers "achilles"; ChangeRovers "aeneas"] = Some w /\
    roverName (self w) = "aeneas" /\
    gripperWristAnglePublisher (self w) = Some (wrist_topic (roverName (self w))) /\
    gripperFingerAnglePublisher (self w) = Some (finger_topic (roverName (self w))) /\
    live (ros w) = [wrist_topic (roverName (self w));
                    finger_topic (roverName (self w))].
Proof.
  eexists. split; [vm_compute; reflexivity|].
  split; [reflexivity|].
  apply publishers_follow_rover; [|reflexivity].
  apply (achilles_after_reachable
           [ChangeRovers "ajax"; MoveWrist (F32.of_double (F64.literal 75 2)); WristTimeout;
            ChangeRovers "achilles"; ChangeRovers "aeneas"]).
  vm_compute. reflexivity.
Defined.

(** X5: from a ready state that can be reached, a sequence of calls without
    [changeRovers] never throws, keeps the rover name, and adds to the ROS
    record nothing but messages on the two topics of that rover. *)
Theorem commands_go_to_the_current_rover w calls :
  reachable w -> ready (self w) = true ->
  forallb keeps_rover calls = true ->
  exists w' extra,
    run calls w = Returns tt w' /\
    roverName (self w') = roverName (self w) /\
    ros w' = (ros w ++ extra)%list /\
    Forall (command_for (roverName (self w))) extra.
Proof.
  intros H R K.
  destruct (run_keeps_rover calls w (reachable_orderly w H R) K)
    as (w' & extra & E & _ & N & L & F).
  exists w', extra. auto.
Qed.

Lemma commands_go_to_the_current_rover_witness :
  exists w,
    achilles_after [MoveWrist (F32.of_double (SFopp (F64.literal 10 1))); WristTimeout; ChangeRovers "ajax"] = Some w /\
    exists w' extra,
      run [MoveWrist (F32.of_double (SFopp (F64.literal 10 1))); WristTimeout; MoveFingers (F32.of_double (F64.literal 10 1)); FingerTimeout;
           WristTimeout] w = Returns tt w' /\
      roverName (self w') = roverName (self w) /\
      ros w' = (ros w ++ extra)%list /\
      Forall (command_for (roverName (self w))) extra.
Proof.
  eexists. split; [vm_compute; reflexivity|].
  apply commands_go_to_the_current_rover; [|reflexivity|reflexivity].
  apply (achilles_after_reachable
           [MoveWrist (F32.of_double (SFopp (F64.literal 10 1))); WristTimeout; ChangeRovers "ajax"]).
  vm_compute. reflexivity.
Defined.

(** X12: [changeRovers], wherever both timers exist, keeps the node handle,
    the limits, the change rates, the dead zone, the reapply period and the
    intervals of the timers; it shuts the old publishers down before it
    advertises the two topics of the new rover, and sends nothing else. *)
Theorem changeRovers_keeps_parameters w r :
  allocated (self w) = true ->
  exists w',
    changeRovers r w = Returns tt w' /\
    nh (self w') = nh (self w) /\
    (wristAngleMin (self w'), wristAngleMax (self w'),
     wristAngleChangeRate (self w'), fingerAngleMin (self w'),
     fingerAngleMax (self w'), fingerAngleChangeRate (self w'),
     stickCenterTolerance (self w'), commandReapplyRate (self w'))
    = (wristAngleMin (self w), wristAngleMax (self w),
       wristAngleChangeRate (self w), fingerAngleMin (self w),
       fingerAngleMax (self w), fingerAngleChangeRate (self w),
       stickCenterTolerance (self w), commandReapplyRate (self w)) /\
    option_map interval (joystickGripperWristControlTimer (self w'))
      = option_map interval (joystickGripperWristControlTimer (self w)) /\
    option_map interval (joystickGripperFingerControlTimer (self w'))
      = option_map interval (joystickGripperFingerControlTimer (self w)) /\
    ros w' = (ros w ++ closed (gripperWristAnglePublisher (self w))
                    ++ closed (gripperFingerAnglePublisher (self w))
                    ++ [Advertise (wrist_topic r) 10;
                        Advertise (finger_topic r) 10])%list.
Proof.
  intros A. destruct (allocated_timers _ A) as (tw & tf & Hw & Hf).
  rewrite (changeRovers_allocated r w tw tf Hw Hf).
  eexists. split; [reflexivity|]. simpl. rewrite Hw, Hf.
  repeat split.
Qed.

Lemma changeRovers_keeps_parameters_witness :
  exists w,
    achilles_after [MoveWrist (F32.of_double (SFopp (F64.literal 10 1))); WristTimeout] = Some w /\
    allocated (self w) = true /\
    exists w',
      changeRovers "ajax" w = Returns tt w' /\
      nh (self w') = nh (self w) /\
      (wristAngleMin (self w'), wristAngleMax (self w'),
       wristAngleChangeRate (self w'), fingerAngleMin (self w'),
       fingerAngleMax (self w'), fingerAngleChangeRate (self w'),
       stickCenterTolerance (self w'), commandReapplyRate (self w'))
      = (wristAngleMin (self w), wristAngleMax (self w),
         wristAngleChangeRate (self w), fingerAngleMin (self w),
         fingerAngleMax (self w), fingerAngleChangeRate (self w),
         stickCenterTolerance (self w), commandReapplyRate (self w)) /\
      option_map interval (joystickGripperWristControlTimer (self w'))
        = option_map interval (joystickGripperWristControlTimer (self w)) /\
      option_map interval (joystickGripperFingerControlTimer (self w'))
        = option_map interval (joystickGripperFingerControlTimer (self w)) /\
      ros w' = (ros w ++ closed (gripperWristAnglePublisher (self w))
                      ++ closed (gripperFingerAnglePublisher (self w))
                      ++ [Advertise (wrist_topic "ajax") 10;
                          Advertise (finger_topic "ajax") 10])%list.
Proof.
  eexists. split; [vm_compute; reflexivity|].
  split; [reflexivity|].
  apply changeRovers_keeps_parameters. reflexivity.
Defined.

(** ** The timer slots at the edges of the arithmetic *)

(** X8: whatever the state, a timer slot stores either exactly [+0.0] or an
    angle whose magnitude is not below 0.001, and appends to the ROS record
    exactly one message, on its joint's publisher, carrying the angle it
    stored (nothing when the publisher is invalid). *)
Theorem ticks_never_leave_a_tiny_angle w :
  (exists w',
     joystickGripperWristControlTimerEventHandler w = Returns tt w' /\
     (wristAngle (self w') = S754_zero false \/
      fabs_lt_0_001 (wristAngle (self w')) = false) /\
     ros w' = (ros w ++ sent (gripperWristAnglePublisher (self w))
                             (wristAngle (self w')))%list) /\
  (exists w',
     joystickGripperFingerControlTimerEventHandler w = Returns tt w' /\
     (fingerAngle (self w') = S754_zero false \/
      fabs_lt_0_001 (fingerAngle (self w')) = false) /\
     ros w' = (ros w ++ sent (gripperFingerAnglePublisher (self w))
                             (fingerAngle (self w')))%list).
Proof.
  rewrite wrist_slot_returns, finger_slot_returns.
  split; eexists; (split; [reflexivity|]); simpl; (split; [|reflexivity]).
  - apply snapped_zero_or_large.
  - apply snapped_zero_or_large.
Qed.

(** X9: a NaN angle stays: whatever the vector, the limits and the rate, a
    tick on a joint whose angle is NaN stores NaN again and publishes NaN. *)
Theorem nan_angle_persists w :
  (wristAngle (self w) = S754_nan ->
   exists w',
     joystickGripperWristControlTimerEventHandler w = Returns tt w' /\
     wristAngle (self w') = S754_nan /\
     ros w' = (ros w ++ sent (gripperWristAnglePublisher (self w)) S754_nan)%list) /\
  (fingerAngle (self w) = S754_nan ->
   exists w',
     joystickGripperFingerControlTimerEventHandler w = Returns tt w' /\
     fingerAngle (self w') = S754_nan /\
     ros w' = (ros w ++ sent (gripperFingerAnglePublisher (self w)) S754_nan)%list).
Proof.
  rewrite wrist_slot_returns, finger_slot_returns.
  unfold wrist_tick_angle, finger_tick_angle, integrated.
  split; intros ->; rewrite add_nan_l, tick_of_nan; eexists; repeat split.
Qed.

Lemma nan_angle_persists_witness :
  exists w,
    achilles_after [MoveWrist S754_nan; WristTimeout; MoveWrist (F32.of_double (SFopp (F64.literal 10 1)));
                    MoveFingers S754_nan; FingerTimeout; MoveFingers (F32.of_double (F64.literal 10 1))]
      = Some w /\
    wristAngle (self w) = S754_nan /\ fingerAngle (self w) = S754_nan /\
    (exists w',
       joystickGripperWristControlTimerEventHandler w = Returns tt w' /\
       wristAngle (self w') = S754_nan /\
       ros w' = (ros w ++ sent (gripperWristAnglePublisher (self w)) S754_nan)%list) /\
    (exists w',
       joystickGripperFingerControlTimerEventHandler w = Returns tt w' /\
       fingerAngle (self w') = S754_nan /\
       ros w' = (ros w ++ sent (gripperFingerAnglePublisher (self w)) S754_nan)%list).
Proof.
  eexists. split; [vm_compute; reflexivity|].
  split; [reflexivity|]. split; [reflexivity|].
  split.
  - apply (proj1 (nan_angle_persists _)). reflexivity.
  - apply (proj2 (nan_angle_persists _)). reflexivity.
Defined.

(** X10: from every ready state that can be reached, a NaN from the joystick
    is not taken for a centred stick: the joint's timer is left running, and
    the next tick makes the joint's angle NaN. *)
Theorem nan_input_poisons_angle w :
  reachable w -> ready (self w) = true ->
  (exists w',
     run [MoveWrist S754_nan; WristTimeout] w = Returns tt w' /\
     running (joystickGripperWristControlTimer (self w')) = true /\
     wristAngle (self w') = S754_nan) /\
  (exists w',
     run [MoveFingers S754_nan; FingerTimeout] w = Returns tt w' /\
     running (joystickGripperFingerControlTimer (self w')) = true /\
     fingerAngle (self w') = S754_nan).
Proof.
  intros H R. destruct (reachable_ready w H R) as (_ & tw & tf & Hw & Hf).
  split.
  - rewrite run_cons. simpl dispatch. rewrite (moveWrist_ready _ _ R), Hw.
    rewrite run_cons, wrist_timeout_fires by reflexivity.
    rewrite wrist_slot_returns. eexists. split; [reflexivity|].
    split; [reflexivity|].
    unfold wrist_tick_angle, integrated. exec.
    change (SFopp S754_nan) with S754_nan.
    now rewrite mul_nan_l, add_nan_r, tick_of_nan.
  - rewrite run_cons. simpl dispatch. rewrite (moveFingers_ready _ _ R), Hf.
    rewrite run_cons, finger_timeout_fires by reflexivity.
    rewrite finger_slot_returns. eexists. split; [reflexivity|].
    split; [reflexivity|].
    unfold finger_tick_angle, integrated. exec.
    now rewrite mul_nan_l, add_nan_r, tick_of_nan.
Qed.

Lemma nan_input_poisons_angle_witness :
  exists w,
    achilles_after [MoveWrist (F32.of_double (SFopp (F64.literal 10 1))); WristTimeout; MoveFingers (F32.of_double (F64.literal 10 1));
                    FingerTimeout] = Some w /\
    wristAngle (self w) = F32.literal 1 1 /\
    (exists w',
       run [MoveWrist S754_nan; WristTimeout] w = Returns tt w' /\
       running (joystickGripperWristControlTimer (self w')) = true /\
       wristAngle (self w') = S754_nan) /\
    (exists w',
       run [MoveFingers S754_nan; FingerTimeout] w = Returns tt w' /\
       running (joystickGripperFingerControlTimer (self w')) = true /\
       fingerAngle (self w') = S754_nan).
Proof.
  eexists. split; [vm_compute; reflexivity|].
  split; [vm_compute; reflexivity|].
  apply nan_input_poisons_angle; [|reflexivity].
  apply (achilles_after_reachable
           [MoveWrist (F32.of_double (SFopp (F64.literal 10 1))); WristTimeout; MoveFingers (F32.of_double (F64.literal 10 1)); FingerTimeout]).
  vm_compute. reflexivity.
Defined.

(** X11: from every ready state that can be reached with finite angles, an
    infinite joystick value drives the joint to a limit in one tick:
    [moveWrist(-inf)] to 1.0 and [moveWrist(+inf)] to 0.0 (the wrist is
    negated), [moveFingers(+inf)] to 2.0 and [moveFingers(-inf)] to 0.0. *)
Theorem infinite_deflection_saturates w :
  reachable w -> ready (self w) = true ->
  is_finite (wristAngle (self w)) = true ->
  is_finite (fingerAngle (self w)) = true ->
  (exists w', run [MoveWrist (S754_infinity true); WristTimeout] w = Returns tt w' /\
              wristAngle (self w') = F32.of_double (F64.literal 10 1)) /\
  (exists w', run [MoveWrist (S754_infinity false); WristTimeout] w = Returns tt w' /\
              wristAngle (self w') = S754_zero false) /\
  (exists w', run [MoveFingers (S754_infinity false); FingerTimeout] w = Returns tt w' /\
              fingerAngle (self w') = F32.of_double (F64.literal 20 1)) /\
  (exists w', run [MoveFingers (S754_infinity true); FingerTimeout] w = Returns tt w' /\
              fingerAngle (self w') = S754_zero false).
Proof.
  intros H R Fw Ff.
  destruct (reachable_ready w H R) as (C & tw & tf & Hw & Hf).
  destruct C as [E1 E2 E3 E4 E5 E6 Er Et].
  assert (Sw : forall s, steered (SFopp (S754_infinity s)) (stickCenterTolerance (self w))
                 (commandReapplyRate (self w)) tw
               = QTimer_start (commandReapplyRate (self w)) tw)
    by (intros s; unfold steered; rewrite Et; reflexivity).
  assert (Sf : forall s, steered (S754_infinity s) (stickCenterTolerance (self w))
                 (commandReapplyRate (self w)) tf
               = QTimer_start (commandReapplyRate (self w)) tf)
    by (intros s; unfold steered; rewrite Et; reflexivity).
  repeat split.
  - rewrite run_cons. simpl dispatch. rewrite (moveWrist_ready _ _ R), Hw, Sw.
    rewrite run_cons, wrist_timeout_fires by reflexivity.
    rewrite wrist_slot_returns. eexists. split; [reflexivity|].
    unfold wrist_tick_angle, integrated. exec. rewrite E1, E2, E3.
    destruct (wristAngle (self w)); try discriminate Fw; vm_compute; reflexivity.
  - rewrite run_cons. simpl dispatch. rewrite (moveWrist_ready _ _ R), Hw, Sw.
    rewrite run_cons, wrist_timeout_fires by reflexivity.
    rewrite wrist_slot_returns. eexists. split; [reflexivity|].
    unfold wrist_tick_angle, integrated. exec. rewrite E1, E2, E3.
    destruct (wristAngle (self w)); try discriminate Fw; vm_compute; reflexivity.
  - rewrite run_cons. simpl dispatch. rewrite (moveFingers_ready _ _ R), Hf, Sf.
    rewrite run_cons, finger_timeout_fires by reflexivity.
    rewrite finger_slot_returns. eexists. split; [reflexivity|].
    unfold finger_tick_angle, integrated. exec. rewrite E4, E5, E6.
    destruct (fingerAngle (self w)); try discriminate Ff; vm_compute; reflexivity.
  - rewrite run_cons. simpl dispatch. rewrite (moveFingers_ready _ _ R), Hf, Sf.
    rewrite run_cons, finger_timeout_fires by reflexivity.
    rewrite finger_slot_returns. eexists. split; [reflexivity|].
    unfold finger_tick_angle, integrated. exec. rewrite E4, E5, E6.
    destruct (fingerAngle (self w)); try discriminate Ff; vm_compute; reflexivity.
Qed.

Lemma infinite_deflection_saturates_witness :
  exists w,
    achilles_after [MoveWrist (F32.of_double (SFopp (F64.literal 10 1))); WristTimeout; WristTimeout;
                    MoveFingers (F32.of_double (F64.literal 10 1)); FingerTimeout] = Some w /\
    wristAngle (self w) = F32.literal 2 1 /\
    (exists w', run [MoveWrist (S754_infinity true); WristTimeout] w = Returns tt w' /\
                wristAngle (self w') = F32.of_double (F64.literal 10 1)) /\
    (exists w', run [MoveWrist (S754_infinity false); WristTimeout] w = Returns tt w' /\
                wristAngle (self w') = S754_zero false) /\
    (exists w', run [MoveFingers (S754_infinity false); FingerTimeout] w = Returns tt w' /\
                fingerAngle (self w') = F32.of_double (F64.literal 20 1)) /\
    (exists w', run [MoveFingers (S754_infinity true); FingerTimeout] w = Returns tt w' /\
                fingerAngle (self w') = S754_zero false).
Proof.
  eexists. split; [vm_compute; reflexivity|].
  split; [vm_compute; reflexivity|].
  apply infinite_deflection_saturates; [|reflexivity|reflexivity|reflexivity].
  apply (achilles_after_reachable
           [MoveWrist (F32.of_double (SFopp (F64.literal 10 1))); WristTimeout; WristTimeout;
            MoveFingers (F32.of_double (F64.literal 10 1)); FingerTimeout]).
  vm_compute. reflexivity.
Defined.
